(** * Wilburb: availability-line parser (src/line_parser.py)

    A shallow embedding of [get_available_times_from_line] and of the
    helpers it uses: the pattern [available_time_regex] run by
    [finditer], [get_hours_minutes], [get_24_hour_format], and the classes
    [Time] and [TimeSlot] with Python's object identity.

    Python strings are modelled as lists of ASCII characters. [int] and
    [str] follow CPython's default limit on decimal conversions (4300
    digits), beyond which they raise [ValueError]. *)

From Stdlib Require Import List Ascii String ZArith Bool Lia.
Import ListNotations.
Open Scope bool_scope.

(** ** Characters and strings *)

Definition str := list ascii.
Definition L (s : string) : str := list_ascii_of_string s.

Definition is_digit (a : ascii) : bool :=
  (48 <=? nat_of_ascii a)%nat && (nat_of_ascii a <=? 57)%nat.

(** Python's [\s] on a [str] pattern, restricted to ASCII:
    tab, newline, vertical tab, form feed, carriage return, the
    separators 0x1c-0x1f and space ([str.isspace]). *)
Definition is_space (a : ascii) : bool :=
  let n := nat_of_ascii a in
  ((9 <=? n)%nat && (n <=? 13)%nat) || ((28 <=? n)%nat && (n <=? 32)%nat).

Definition is_colon (a : ascii) : bool := Ascii.eqb a ":"%char.

(** ASCII case folding, as [re.I] does for ASCII letters. *)
Definition lower (a : ascii) : ascii :=
  let n := nat_of_ascii a in
  if (65 <=? n)%nat && (n <=? 90)%nat then ascii_of_nat (n + 32) else a.

Fixpoint prefix_ci (w s : str) : bool :=
  match w, s with
  | [], _ => true
  | a :: w', b :: s' => Ascii.eqb (lower a) (lower b) && prefix_ci w' s'
  | _ :: _, [] => false
  end.

(** ** Regular expressions (Python [re], backtracking semantics)

    Only the constructs of the file's patterns: one character of a class,
    a greedy star over a character class, a literal (case-insensitive, all
    patterns carry [re.I]), concatenation, alternation (left first), the
    greedy optional [?] and a named group. *)

Inductive regex :=
| RClass (p : ascii -> bool)
| RStar (p : ascii -> bool)
| RLit (w : str)
| RSeq (r1 r2 : regex)
| RAlt (r1 r2 : regex)
| ROpt (r : regex)
| RGroup (name : string) (r : regex).

(** Captured groups: the most recent capture of a name comes first. *)
Definition caps := list (string * str).

Fixpoint group (n : string) (c : caps) : option str :=
  match c with
  | [] => None
  | (m, w) :: c' => if String.eqb n m then Some w else group n c'
  end.

Fixpoint span (p : ascii -> bool) (s : str) : nat :=
  match s with
  | a :: s' => if p a then S (span p s') else 0
  | [] => 0
  end.

(** All ways [r] matches a prefix of [s], in the order the backtracking
    engine tries them; the first one is the engine's result. Each result is
    the remaining input and the captures. *)
Fixpoint run (r : regex) (s : str) (c : caps) : list (str * caps) :=
  match r with
  | RClass p =>
      match s with
      | a :: s' => if p a then [(s', c)] else []
      | [] => []
      end
  | RStar p => map (fun k => (skipn k s, c)) (rev (seq 0 (S (span p s))))
  | RLit w => if prefix_ci w s then [(skipn (List.length w) s, c)] else []
  | RSeq r1 r2 => flat_map (fun '(s1, c1) => run r2 s1 c1) (run r1 s c)
  | RAlt r1 r2 => run r1 s c ++ run r2 s c
  | ROpt r1 => run r1 s c ++ [(s, c)]
  | RGroup n r1 =>
      map (fun '(s1, c1) => (s1, (n, firstn (List.length s - List.length s1) s) :: c1))
          (run r1 s c)
  end.

(** [re.match]: the first result at the start of the string. *)
Definition re_match (r : regex) (s : str) : option (str * caps) :=
  match run r s [] with
  | m :: _ => Some m
  | [] => None
  end.

Definition re_match_b (r : regex) (s : str) : bool :=
  match re_match r s with Some _ => true | None => false end.

(** [finditer]: scan left to right; after a match resume at its end.
    [skip] counts the characters of the last match still to pass over.
    The position at the very end of the string is tried as well. The
    patterns below never match the empty string. *)
Fixpoint finditer_from (r : regex) (s : str) (skip : nat) : list caps :=
  match s with
  | [] =>
      match skip, re_match r [] with
      | 0, Some (_, c) => [c]
      | _, _ => []
      end
  | _ :: s' =>
      match skip with
      | S k => finditer_from r s' k
      | 0 =>
          match re_match r s with
          | Some (s1, c) => c :: finditer_from r s' (List.length s - List.length s1 - 1)
          | None => finditer_from r s' 0
          end
      end
  end.

Definition finditer (r : regex) (s : str) : list caps := finditer_from r s 0.

(** ** The patterns of the module *)

(** [\d+] *)
Definition digits : regex := RSeq (RClass is_digit) (RStar is_digit).

(** [\d+(?:[:]{0,1}\d+)?] *)
Definition time_re : regex :=
  RSeq digits (ROpt (RSeq (ROpt (RClass is_colon)) digits)).

(** [am|a\.m|a\.m\.|pm|p\.m|p\.m\.] *)
Definition am_alts : regex := RAlt (RLit (L "am")) (RAlt (RLit (L "a.m")) (RLit (L "a.m."))).
Definition pm_alts : regex := RAlt (RLit (L "pm")) (RAlt (RLit (L "p.m")) (RLit (L "p.m."))).
Definition indicator_alts : regex := RAlt (RLit (L "am")) (RAlt (RLit (L "a.m"))
  (RAlt (RLit (L "a.m.")) (RAlt (RLit (L "pm")) (RAlt (RLit (L "p.m")) (RLit (L "p.m.")))))).

(** [[-: ]] *)
Definition is_sep (a : ascii) : bool :=
  Ascii.eqb a "-"%char || Ascii.eqb a ":"%char || Ascii.eqb a " "%char.

(** [available_time_regex]: in verbose mode the pattern is
    [(?P<start_time>...)\s*(?P<SI>...)?(?:[-: ](?P<end_time>...)\s*(?P<EI>...))?];
    the end indicator [EI] is inside the optional end group without a [?]
    of its own. *)
Definition available_time_regex : regex :=
  RSeq (RGroup "start_time" time_re)
  (RSeq (RStar is_space)
  (RSeq (ROpt (RGroup "SI" indicator_alts))
        (ROpt (RSeq (RClass is_sep)
              (RSeq (RGroup "end_time" time_re)
              (RSeq (RStar is_space)
                    (RGroup "EI" indicator_alts))))))).

Definition twelve_hour_format_regex : regex := indicator_alts.
Definition am_format_regex : regex := am_alts.
Definition pm_format_regex : regex := pm_alts.

(** ** Integers parsed from digit strings *)

Definition digit_val (a : ascii) : Z := Z.of_nat (nat_of_ascii a - 48).

(** CPython's default [sys.get_int_max_str_digits()] (3.11 on, and the
    2022 security releases of 3.7-3.10): [int] of a decimal text and [str]
    of an [int] raise [ValueError] beyond this many digits. *)
Definition int_max_str_digits : nat := 4300.

(** [int(w)] on a non-empty run of ASCII digits; any other argument is
    reported as an exception ([None]): only digit strings reach it here.
    A run of more than [int_max_str_digits] digits raises [ValueError]. *)
Definition py_int (w : str) : option Z :=
  match w with
  | [] => None
  | _ :: _ =>
      if forallb is_digit w then
        if (int_max_str_digits <? List.length w)%nat then None
        else Some (fold_left (fun acc a => acc * 10 + digit_val a)%Z w 0%Z)
      else None
  end.

(** [w.split(':')] *)
Fixpoint split_colon (w : str) : list str :=
  match w with
  | [] => [[]]
  | a :: w' =>
      if is_colon a then [] :: split_colon w'
      else match split_colon w' with
           | x :: xs => (a :: x) :: xs
           | [] => [[a]]
           end
  end.

(** [get_hours_minutes]; [None] is a raised [ValueError]. *)
Definition get_hours_minutes (time : str) : option (Z * Z) :=
  if existsb is_colon time then
    match split_colon time with
    | [h; m] =>
        match py_int h, py_int m with
        | Some h', Some m' => Some (h', m')
        | _, _ => None
        end
    | _ => None
    end
  else
    match py_int time with
    | Some h => Some (h, 0%Z)
    | None => None
    end.

(** [get_24_hour_format]: Python's [%] by 24 is [Z.modulo]. *)
Definition get_24_hour_format (hour : Z) (indicator : str) : Z :=
  let hour :=
    if Z.eqb hour 12 && re_match_b am_format_regex indicator then 0%Z
    else if re_match_b pm_format_regex indicator then (hour + 12)%Z
    else hour in
  (hour mod 24)%Z.

(** ** Objects: [Time], [TimeSlot] and Python identity

    Every constructor call allocates a fresh object; its identity is the
    [nat] drawn from a counter. Neither class defines [__eq__] on [Time],
    so [==] on [Time] objects is identity. *)

Record Time := mkTime { time_id : nat; hours : Z; minutes : Z }.
Record TimeSlot := mkTimeSlot
  { slot_id : nat; start_time : Time; end_time : option Time }.

(** The state and error monad of the resolver: the next free object
    identity, and [None] for a raised exception. *)
Definition M (A : Type) : Type := nat -> option (A * nat).

Definition ret {A} (a : A) : M A := fun n => Some (a, n).
Definition bind {A B} (m : M A) (f : A -> M B) : M B :=
  fun n => match m n with Some (a, n') => f a n' | None => None end.
Definition lift {A} (o : option A) : M A :=
  fun n => match o with Some a => Some (a, n) | None => None end.

Notation "x <- m ;; k" := (bind m (fun x => k))
  (at level 61, m at next level, right associativity).

Definition new_Time (h m : Z) : M Time := fun n => Some (mkTime n h m, S n).
Definition new_TimeSlot (s : Time) (e : option Time) : M TimeSlot :=
  fun n => Some (mkTimeSlot n s e, S n).

(** [Time.__eq__] is [object.__eq__]: identity. *)
Definition time_eq (a b : Time) : bool := Nat.eqb (time_id a) (time_id b).

(** [==] on [Optional[Time]]. *)
Definition opt_time_eq (a b : option Time) : bool :=
  match a, b with
  | None, None => true
  | Some x, Some y => time_eq x y
  | _, _ => false
  end.

(** [TimeSlot.__eq__] *)
Definition timeslot_eq (x y : TimeSlot) : bool :=
  time_eq (start_time x) (start_time y) && opt_time_eq (end_time x) (end_time y).

(** [set.add]: an element is kept out when an element already present is
    the same object or compares [==] to it ([__hash__] agrees with
    [__eq__], so hashing only narrows the comparisons). *)
Definition set_add (set : list TimeSlot) (x : TimeSlot) : list TimeSlot :=
  if existsb (fun y => Nat.eqb (slot_id y) (slot_id x) || timeslot_eq y x) set
  then set else set ++ [x].

(** The values of a slot: ((hour, minute), optional (hour, minute)). *)
Definition time_value (t : Time) : Z * Z := (hours t, minutes t).
Definition slot_value (x : TimeSlot) : (Z * Z) * option (Z * Z) :=
  (time_value (start_time x), option_map time_value (end_time x)).

(** ** [get_available_times_from_line] *)

(** Python truthiness of a string. *)
Definition truthy (w : str) : bool := match w with [] => false | _ => true end.

(** One entry of [temp]:
    [(start_time, start_indicator, end_time, end_indicator, uses_24_hour_format)]. *)
Record TempSlot := mkTempSlot
  { t_start : option str; t_SI : str; t_end : option str; t_EI : str;
    t_uses24 : bool }.

Definition or_empty (o : option str) : str :=
  match o with Some w => w | None => [] end.

(** The body of the first loop, for one match. *)
Definition temp_of_match (c : caps) : TempSlot :=
  let start_indicator := or_empty (group "SI" c) in
  let end_indicator := or_empty (group "EI" c) in
  let uses_24_hour_format :=
    negb (re_match_b twelve_hour_format_regex start_indicator
          || re_match_b twelve_hour_format_regex end_indicator) in
  mkTempSlot (group "start_time" c) start_indicator (group "end_time" c)
             end_indicator uses_24_hour_format.

(** Lines 132-150: the end-hour branches, run when [uses_24_hour_format]
    is false; returns the new (start_hour, end_hour). *)
Definition end_adjust (SI EI : str) (start_hour end_hour : Z) : Z * Z :=
  (* Both given *)
  let end_hour :=
    if truthy SI && truthy EI then get_24_hour_format end_hour SI else end_hour in
  (* SI given, EI not *)
  if truthy SI && negb (truthy EI) then (start_hour, get_24_hour_format end_hour SI)
  (* SI blank, EI given *)
  else if negb (truthy SI) && truthy EI then (get_24_hour_format start_hour EI, end_hour)
  (* Neither given *)
  else if negb (truthy SI) && negb (truthy EI) then
    let start_hour := get_24_hour_format start_hour (L "pm") in
    if Z.ltb end_hour start_hour || Z.eqb end_hour 12
    then (start_hour, get_24_hour_format end_hour (L "am"))
    else (start_hour, get_24_hour_format end_hour (L "pm"))
  else (start_hour, end_hour).

(** The body of the second loop, up to [time_slots.add]. A missing
    [start_time] would raise ([':' in None]). *)
Definition resolve (t : TempSlot) : M TimeSlot :=
  st <- lift (t_start t) ;;
  hm <- lift (get_hours_minutes st) ;;
  let start_hour :=
    if negb (t_uses24 t) then get_24_hour_format (fst hm) (t_SI t) else fst hm in
  let start_minute := snd hm in
  match t_end t with
  | Some ((_ :: _) as et) =>
      ehm <- lift (get_hours_minutes et) ;;
      let hs := if negb (t_uses24 t)
                then end_adjust (t_SI t) (t_EI t) start_hour (fst ehm)
                else (start_hour, fst ehm) in
      e <- new_Time (snd hs) (snd ehm) ;;
      s <- new_Time (fst hs) start_minute ;;
      new_TimeSlot s (Some e)
  | _ =>
      let start_hour :=
        if negb (truthy (t_SI t)) then get_24_hour_format start_hour (L "pm")
        else start_hour in
      s <- new_Time start_hour start_minute ;;
      new_TimeSlot s None
  end.

Fixpoint add_all (temp : list TempSlot) (time_slots : list TimeSlot) : M (list TimeSlot) :=
  match temp with
  | [] => ret time_slots
  | t :: ts => x <- resolve t ;; add_all ts (set_add time_slots x)
  end.

(** [get_available_times_from_line]; [None] is a raised exception. The
    debug [print] calls have no effect on the result. *)
Definition get_available_times_from_line (line : str) : option (list TimeSlot) :=
  let temp := map temp_of_match (finditer available_time_regex line) in
  match add_all temp [] 0 with
  | Some (time_slots, _) => Some time_slots
  | None => None
  end.

(** ** [Time.__str__] *)

Fixpoint nat_digits (fuel n : nat) (acc : str) : str :=
  match fuel with
  | 0 => acc
  | S f =>
      let acc := ascii_of_nat (48 + n mod 10) :: acc in
      if (n <? 10)%nat then acc else nat_digits f (n / 10) acc
  end.

(** [str(n)] for an [int]; [None] is the [ValueError] raised when the
    number has more than [int_max_str_digits] digits (the sign apart). *)
Definition py_str (z : Z) : option str :=
  let n := Z.to_nat (Z.abs z) in
  let d := nat_digits (S n) n [] in
  if (int_max_str_digits <? List.length d)%nat then None
  else Some ((if Z.ltb z 0 then ["-"%char] else []) ++ d).

Definition rjust (width : nat) (fill : ascii) (s : str) : str :=
  repeat fill (width - List.length s) ++ s.
Definition ljust (width : nat) (fill : ascii) (s : str) : str :=
  s ++ repeat fill (width - List.length s).

(** ['{}:{}'.format(str(hours).rjust(2, '0'), str(minutes).ljust(2, '0'))];
    [None] is an exception raised by [str]. *)
Definition time_str (t : Time) : option str :=
  match py_str (hours t), py_str (minutes t) with
  | Some hs, Some ms => Some (rjust 2 "0"%char hs ++ [":"%char] ++ ljust 2 "0"%char ms)
  | _, _ => None
  end.

(** ** Observations used in statements *)

Definition slot_values (o : option (list TimeSlot)) : option (list ((Z * Z) * option (Z * Z))) :=
  option_map (map slot_value) o.

Definition start_hours (o : option (list TimeSlot)) : list Z :=
  match o with
  | Some l => map (fun x => hours (start_time x)) l
  | None => []
  end.

(** The raw match [(start_time, SI, end_time, EI)] of a capture list. *)
Definition raw_match (c : caps) : option str * option str * option str * option str :=
  (group "start_time" c, group "SI" c, group "end_time" c, group "EI" c).

Definition str_eqb (a b : str) : bool :=
  if list_eq_dec ascii_dec a b then true else false.

Definition dig (d : Z) : ascii := ascii_of_nat (48 + Z.to_nat d).

(** The rendering [Time.__str__] gives for an hour in 0-23 and a minute in
    0-59: two hour digits, then the minute's digits with a ['0'] appended
    when it has only one. *)
Definition time_str_expected (h m : Z) : str :=
  [dig (h / 10); dig (h mod 10); ":"%char]
  ++ (if Z.ltb m 10 then [dig m; "0"%char] else [dig (m / 10); dig (m mod 10)]).

Definition zrange (lo n : nat) : list Z := map Z.of_nat (seq lo n).

Definition time_str_table_ok : bool :=
  forallb (fun h => forallb (fun m =>
                               match time_str (mkTime 0 h m) with
                               | Some r => str_eqb r (time_str_expected h m)
                               | None => false
                               end)
                            (zrange 0 60))
          (zrange 0 24).

(** The meridiem spellings of the patterns, in any letter case. *)
Definition am_spelling (s : str) : bool :=
  existsb (str_eqb (map lower s)) [L "am"; L "a.m"; L "a.m."].
Definition pm_spelling (s : str) : bool :=
  existsb (str_eqb (map lower s)) [L "pm"; L "p.m"; L "p.m."].

(** Capture names whose text [get_hours_minutes] receives. *)
Definition time_group (n : string) : bool :=
  String.eqb n "start_time" || String.eqb n "end_time".

(** A non-empty run of digits. *)
Definition digit_text (w : str) : Prop := w <> [] /\ forallb is_digit w = true.

(** The texts [time_re] matches: digits, or digits, a colon and digits. *)
Definition time_text (w : str) : Prop :=
  digit_text w \/
  exists x a y, w = x ++ a :: y /\ is_colon a = true /\ digit_text x /\ digit_text y.

Definition cap_ok (nv : string * str) : Prop :=
  time_group (fst nv) = true -> time_text (snd nv).

(** The length of the longest run of consecutive decimal digits in [s]. *)
Fixpoint digit_run_max (s : str) : nat :=
  match s with
  | [] => 0
  | _ :: s' => Nat.max (span is_digit s) (digit_run_max s')
  end.

(** Every group named [start_time] or [end_time] has the body [time_re]. *)
Fixpoint groups_ok (r : regex) : Prop :=
  match r with
  | RGroup n r1 => (time_group n = true -> r1 = time_re) /\ groups_ok r1
  | RSeq r1 r2 | RAlt r1 r2 => groups_ok r1 /\ groups_ok r2
  | ROpt r1 => groups_ok r1
  | _ => True
  end.

Fixpoint group_names (r : regex) : list string :=
  match r with
  | RGroup n r1 => n :: group_names r1
  | RSeq r1 r2 | RAlt r1 r2 => group_names r1 ++ group_names r2
  | ROpt r1 => group_names r1
  | _ => []
  end.

(** A [temp] entry on which the resolver's parsing cannot raise. *)
Definition temp_ok (t : TempSlot) : Prop :=
  (exists w hm, t_start t = Some w /\ get_hours_minutes w = Some hm) /\
  (forall w, t_end t = Some w -> exists hm, get_hours_minutes w = Some hm).

(** Every group [RGroup n r1] of [r] captures only texts satisfying [Q n]. *)
Fixpoint groups_sat (Q : string -> str -> Prop) (r : regex) : Prop :=
  match r with
  | RGroup n r1 =>
      (forall s c s1 c1, In (s1, c1) (run r1 s c) ->
         Q n (firstn (List.length s - List.length s1) s)) /\ groups_sat Q r1
  | RSeq r1 r2 | RAlt r1 r2 => groups_sat Q r1 /\ groups_sat Q r2
  | ROpt r1 => groups_sat Q r1
  | _ => True
  end.

(** The indicator groups [SI] and [EI] capture meridiem spellings. *)
Definition indicator_cap (n : string) (w : str) : Prop :=
  (n = "SI"%string \/ n = "EI"%string) -> am_spelling w || pm_spelling w = true.

(** The values of the [TimeSlot] the second loop builds from one [temp]
    entry (they do not depend on the object identities drawn). *)
Definition resolve_value (t : TempSlot) : option ((Z * Z) * option (Z * Z)) :=
  match resolve t 0 with
  | Some (x, _) => Some (slot_value x)
  | None => None
  end.

(** ** Theorems *)

(** Claim C8: on the line ["7:30 pm-9pm, 10pm-12am"] the extractor yields
    exactly two matches, left to right: ("7:30","pm","9","pm") and
    ("10","pm","12","am"). *)
Theorem extractor_example :
  map raw_match (finditer available_time_regex (L "7:30 pm-9pm, 10pm-12am")) =
  [(Some (L "7:30"), Some (L "pm"), Some (L "9"), Some (L "pm"));
   (Some (L "10"), Some (L "pm"), Some (L "12"), Some (L "am"))].
Proof. vm_compute. reflexivity. Qed.

(** Claim C1 (code defect): the markerless text ["5:00-6:00"] is not
    resolved by the night heuristic. The pattern's end group requires an end
    marker, so the extractor yields two bare times, each resolved by the
    no-end PM default; and a markerless match carrying an end time would be
    classified 24-hour and skip the heuristic, which is nested under
    [if not uses_24_hour_format], giving 05:00-06:00. *)
Theorem night_heuristic_unreached :
  map raw_match (finditer available_time_regex (L "5:00-6:00")) =
    [(Some (L "5:00"), None, None, None); (Some (L "6:00"), None, None, None)] /\
  slot_values (get_available_times_from_line (L "5:00-6:00")) =
    Some [((17, 0), None); ((18, 0), None)]%Z /\
  option_map (fun r => slot_value (fst r))
    (resolve (temp_of_match [("end_time"%string, L "6:00"); ("start_time"%string, L "5:00")]) 0) =
    Some ((5, 0), Some (6, 0))%Z.
Proof. vm_compute. repeat split. Qed.

(** Claim C2 (code defect): with no start marker and an end marker, the
    end marker converts the start hour only; the end hour is left as
    written: ["7-9pm"] resolves to 19:00-09:00, not 19:00-21:00. *)
Theorem no_start_marker_end_unconverted :
  map raw_match (finditer available_time_regex (L "7-9pm")) =
    [(Some (L "7"), None, Some (L "9"), Some (L "pm"))] /\
  slot_values (get_available_times_from_line (L "7-9pm")) =
    Some [((19, 0), Some (9, 0))]%Z.
Proof. vm_compute. repeat split. Qed.

(** Claim C3 (code defect): with both markers the end hour is converted
    with the start marker: ["3pm-9am"] resolves to 15:00-21:00, not
    15:00-09:00. *)
Theorem both_markers_end_uses_start_marker :
  map raw_match (finditer available_time_regex (L "3pm-9am")) =
    [(Some (L "3"), Some (L "pm"), Some (L "9"), Some (L "am"))] /\
  slot_values (get_available_times_from_line (L "3pm-9am")) =
    Some [((15, 0), Some (21, 0))]%Z.
Proof. vm_compute. repeat split. Qed.

(** Claim C4 (code defect): the end hour of a match with an end marker and
    no start marker is never reduced mod 24: ["7-30pm"] gives end hour 30.
    The markerless ["730-9"] is split into two bare times, 22:00 and
    21:00. *)
Theorem end_hour_out_of_range :
  slot_values (get_available_times_from_line (L "7-30pm")) =
    Some [((19, 0), Some (30, 0))]%Z /\
  slot_values (get_available_times_from_line (L "730-9")) =
    Some [((22, 0), None); ((21, 0), None)]%Z.
Proof. vm_compute. repeat split. Qed.

(** Claim C5 (code defect), a counterexample: two [TimeSlot]s whose start
    and end have equal values are not [==], since [Time] compares by
    identity; and the line ["5pm, 5pm"] leaves two slots of equal value in
    the result set. *)
Lemma timeslot_equality_not_structural :
  ~ (forall x y : TimeSlot, slot_value x = slot_value y -> timeslot_eq x y = true) /\
  ~ (forall line slots, get_available_times_from_line line = Some slots ->
       NoDup (map slot_value slots)).
Proof.
  split.
  - intros H.
    specialize (H (mkTimeSlot 0 (mkTime 1 17 0) None) (mkTimeSlot 2 (mkTime 3 17 0) None)
                  eq_refl).
    discriminate H.
  - intros H.
    specialize (H (L "5pm, 5pm")).
    destruct (get_available_times_from_line (L "5pm, 5pm")) as [slots|] eqn:E;
      [| vm_compute in E; discriminate E].
    specialize (H slots eq_refl).
    vm_compute in E. injection E as <-.
    simpl in H. inversion H as [|x l Hnotin _ Hx]; subst.
    apply Hnotin. left. reflexivity.
Qed.

(** Claim C7, as stated, is refuted: a bare ["13"] (no marker, no end
    time) resolves to start hour 1, not 13. *)
Lemma bare_13_not_24_hour :
  ~ (start_hours (get_available_times_from_line (L "12pm")) = [12%Z] /\
     start_hours (get_available_times_from_line (L "12am")) = [0%Z] /\
     start_hours (get_available_times_from_line (L "13")) = [13%Z]).
Proof. intros [_ [_ H]]. vm_compute in H. discriminate H. Qed.

(** Claim C7, amended: ["12am"] resolves to start hour 0; a bare ["13"]
    (no marker, no end time) resolves to start hour 1 = (13 + 12) mod 24,
    the PM default of a single time with no start marker. *)
Theorem twelve_am_and_bare_13 :
  slot_values (get_available_times_from_line (L "12am")) = Some [((0, 0), None)]%Z /\
  slot_values (get_available_times_from_line (L "13")) = Some [((1, 0), None)]%Z.
Proof. vm_compute. split; reflexivity. Qed.

(** Claim C10, as stated, is refuted: hour 19, minute 5 renders as
    ["19:50"], not ["19:5 "]. *)
Lemma time_str_not_space_padded :
  time_str (mkTime 0 19 5) = Some (L "19:50") /\ time_str (mkTime 0 19 5) <> Some (L "19:5 ").
Proof. vm_compute. split; [reflexivity | discriminate]. Qed.

Lemma str_eqb_eq (a b : str) : str_eqb a b = true -> a = b.
Proof. unfold str_eqb. destruct (list_eq_dec ascii_dec a b); congruence. Qed.

Lemma in_zrange (z : Z) (n : nat) : (0 <= z < Z.of_nat n)%Z -> In z (zrange 0 n).
Proof.
  intros Hz. unfold zrange.
  replace z with (Z.of_nat (Z.to_nat z)) by lia.
  apply in_map, in_seq. lia.
Qed.

Lemma time_str_table : time_str_table_ok = true.
Proof. vm_compute. reflexivity. Qed.

(** Claim C10, amended: for an hour in 0-23 and a minute in 0-59 the
    rendering is the hour as two digits (a leading ['0'] below 10), a
    colon, and the minute left-justified with ['0'] to two characters, so
    a one-digit minute [m] renders as [m] followed by ['0'] (minute 5 gives
    ["50"], and 19:05 renders ["19:50"]). *)
Theorem time_str_rendering (i : nat) (h m : Z) :
  (0 <= h <= 23)%Z -> (0 <= m <= 59)%Z ->
  time_str (mkTime i h m) = Some (time_str_expected h m).
Proof.
  intros Hh Hm.
  change (time_str (mkTime i h m)) with (time_str (mkTime 0 h m)).
  pose proof time_str_table as T. unfold time_str_table_ok in T.
  rewrite forallb_forall in T.
  specialize (T h (in_zrange h 24 ltac:(lia))).
  rewrite forallb_forall in T.
  specialize (T m (in_zrange m 60 ltac:(lia))).
  destruct (time_str (mkTime 0 h m)) as [r|]; [|discriminate T].
  f_equal. apply str_eqb_eq, T.
Qed.

Lemma time_str_rendering_witness :
  ((0 <= 19 <= 23)%Z /\ (0 <= 5 <= 59)%Z) /\
  time_str (mkTime 0 19 5) = Some (time_str_expected 19 5) /\
  time_str_expected 19 5 = L "19:50".
Proof.
  split; [lia|]. split.
  - apply (time_str_rendering 0 19 5); lia.
  - vm_compute. reflexivity.
Defined.

(** ** The meridiem patterns *)

Lemma lower_idem (a : ascii) : lower (lower a) = lower a.
Proof. destruct a as [[] [] [] [] [] [] [] []]; reflexivity. Qed.

Lemma prefix_ci_lower (w s : str) : prefix_ci w s = prefix_ci w (map lower s).
Proof.
  revert s; induction w as [|a w IH]; intros [|b s]; simpl; try reflexivity.
  rewrite lower_idem, <- IH. reflexivity.
Qed.

Lemma re_match_b_am (s : str) :
  re_match_b am_format_regex s =
  prefix_ci (L "am") s || prefix_ci (L "a.m") s || prefix_ci (L "a.m.") s.
Proof.
  unfold re_match_b, re_match, am_format_regex, am_alts. cbn [run app].
  destruct (prefix_ci (L "am") s), (prefix_ci (L "a.m") s), (prefix_ci (L "a.m.") s);
    reflexivity.
Qed.

Lemma re_match_b_pm (s : str) :
  re_match_b pm_format_regex s =
  prefix_ci (L "pm") s || prefix_ci (L "p.m") s || prefix_ci (L "p.m.") s.
Proof.
  unfold re_match_b, re_match, pm_format_regex, pm_alts. cbn [run app].
  destruct (prefix_ci (L "pm") s), (prefix_ci (L "p.m") s), (prefix_ci (L "p.m.") s);
    reflexivity.
Qed.

Lemma am_spelling_match (s : str) :
  am_spelling s = true ->
  re_match_b am_format_regex s = true /\ re_match_b pm_format_regex s = false.
Proof.
  intros H. rewrite re_match_b_am, re_match_b_pm, !(prefix_ci_lower _ s).
  unfold am_spelling in H. simpl in H.
  repeat (apply orb_true_iff in H; destruct H as [H|H]);
    try discriminate H; apply str_eqb_eq in H; rewrite H; split; reflexivity.
Qed.

Lemma pm_spelling_match (s : str) :
  pm_spelling s = true ->
  re_match_b am_format_regex s = false /\ re_match_b pm_format_regex s = true.
Proof.
  intros H. rewrite re_match_b_am, re_match_b_pm, !(prefix_ci_lower _ s).
  unfold pm_spelling in H. simpl in H.
  repeat (apply orb_true_iff in H; destruct H as [H|H]);
    try discriminate H; apply str_eqb_eq in H; rewrite H; split; reflexivity.
Qed.

(** Claim C6: for an hour [h] in 0-23, [get_24_hour_format] returns [h]
    for the empty marker, [(h + 12) mod 24] for a pm spelling, 0 for an am
    spelling when [h = 12], and [h] for an am spelling otherwise. *)
Theorem get_24_hour_format_spec (h : Z) (s : str) :
  (0 <= h <= 23)%Z ->
  get_24_hour_format h [] = h /\
  (pm_spelling s = true -> get_24_hour_format h s = ((h + 12) mod 24)%Z) /\
  (am_spelling s = true -> h = 12%Z -> get_24_hour_format h s = 0%Z) /\
  (am_spelling s = true -> h <> 12%Z -> get_24_hour_format h s = h).
Proof.
  intros Hh. unfold get_24_hour_format.
  repeat split.
  - rewrite re_match_b_am, re_match_b_pm. simpl.
    rewrite andb_false_r. apply Z.mod_small. lia.
  - intros Hs. destruct (pm_spelling_match s Hs) as [-> ->].
    rewrite andb_false_r. reflexivity.
  - intros Hs ->. destruct (am_spelling_match s Hs) as [-> _]. reflexivity.
  - intros Hs Hne. destruct (am_spelling_match s Hs) as [-> ->].
    rewrite andb_true_r. destruct (Z.eqb_spec h 12); [contradiction|].
    apply Z.mod_small. lia.
Qed.

Lemma get_24_hour_format_spec_witness :
  (0 <= 12 <= 23)%Z /\ pm_spelling (L "P.M.") = true /\ am_spelling (L "a.m") = true /\
  get_24_hour_format 12 (L "P.M.") = ((12 + 12) mod 24)%Z /\
  get_24_hour_format 12 (L "a.m") = 0%Z.
Proof.
  assert (H : (0 <= 12 <= 23)%Z) by lia.
  split; [exact H|]. split; [reflexivity|]. split; [reflexivity|]. split.
  - destruct (get_24_hour_format_spec 12 (L "P.M.") H) as [_ [Hpm _]].
    apply Hpm. reflexivity.
  - destruct (get_24_hour_format_spec 12 (L "a.m") H) as [_ [_ [Ham _]]].
    apply Ham; reflexivity.
Defined.

(** ** The matcher: shape of its results *)

Lemma in_run_class p s c s1 c1 :
  In (s1, c1) (run (RClass p) s c) -> exists a, s = a :: s1 /\ p a = true /\ c1 = c.
Proof.
  simpl. destruct s as [|a s]; [contradiction|].
  destruct (p a) eqn:E; [|contradiction].
  intros [H|[]]. injection H as <- <-. eauto.
Qed.

Lemma forallb_firstn_span p s k : k <= span p s -> forallb p (firstn k s) = true.
Proof.
  revert k; induction s as [|a s IH]; intros [|k] Hk; simpl in *; auto; try lia.
  destruct (p a); [|lia]. simpl. apply IH. lia.
Qed.

Lemma in_run_star p s c s1 c1 :
  In (s1, c1) (run (RStar p) s c) -> exists w, s = w ++ s1 /\ forallb p w = true /\ c1 = c.
Proof.
  intros H. cbn [run] in H. apply in_map_iff in H. destruct H as [k [Hk Hin]].
  injection Hk as <- <-.
  apply in_rev in Hin. apply in_seq in Hin.
  exists (firstn k s). split; [symmetry; apply firstn_skipn|].
  split; [apply forallb_firstn_span; lia | reflexivity].
Qed.

Lemma in_run_seq r1 r2 s c s1 c1 :
  In (s1, c1) (run (RSeq r1 r2) s c) ->
  exists s' c', In (s', c') (run r1 s c) /\ In (s1, c1) (run r2 s' c').
Proof.
  simpl. intros H. apply in_flat_map in H. destruct H as [[s' c'] [H1 H2]]. eauto.
Qed.

Lemma in_run_opt r s c s1 c1 :
  In (s1, c1) (run (ROpt r) s c) -> In (s1, c1) (run r s c) \/ (s1 = s /\ c1 = c).
Proof.
  simpl. intros H. apply in_app_or in H. destruct H as [H|[H|[]]]; [auto|].
  injection H as <- <-. auto.
Qed.

Lemma in_run_group n r s c s1 c1 :
  In (s1, c1) (run (RGroup n r) s c) ->
  exists c', c1 = (n, firstn (List.length s - List.length s1) s) :: c' /\
             In (s1, c') (run r s c).
Proof.
  simpl. intros H. apply in_map_iff in H. destruct H as [[s' c'] [Hx Hin]].
  injection Hx as <- <-. eauto.
Qed.

Lemma run_suffix r : forall s c s1 c1, In (s1, c1) (run r s c) -> exists w, s = w ++ s1.
Proof.
  induction r as [p|p|w|r1 IH1 r2 IH2|r1 IH1 r2 IH2|r1 IH1|n r1 IH1];
    intros s c s1 c1 H.
  - apply in_run_class in H. destruct H as [a [-> _]]. exists [a]. reflexivity.
  - apply in_run_star in H. destruct H as [w [-> _]]. eauto.
  - simpl in H. destruct (prefix_ci w s); [|contradiction].
    destruct H as [H|[]]. injection H as <- <-.
    exists (firstn (List.length w) s). symmetry. apply firstn_skipn.
  - apply in_run_seq in H. destruct H as [s' [c' [H1 H2]]].
    destruct (IH1 _ _ _ _ H1) as [w1 ->]. destruct (IH2 _ _ _ _ H2) as [w2 ->].
    exists (w1 ++ w2). apply app_assoc.
  - simpl in H. apply in_app_or in H. destruct H as [H|H]; eauto.
  - apply in_run_opt in H. destruct H as [H|[-> _]]; eauto. exists []. reflexivity.
  - apply in_run_group in H. destruct H as [c' [_ H]]. eauto.
Qed.

Lemma run_names r : forall s c s1 c1, In (s1, c1) (run r s c) ->
  exists new, c1 = new ++ c /\ Forall (fun nv => In (fst nv) (group_names r)) new.
Proof.
  induction r as [p|p|w|r1 IH1 r2 IH2|r1 IH1 r2 IH2|r1 IH1|n r1 IH1];
    intros s c s1 c1 H.
  - apply in_run_class in H. destruct H as [_ [_ [_ ->]]]. exists []. auto.
  - apply in_run_star in H. destruct H as [_ [_ [_ ->]]]. exists []. auto.
  - simpl in H. destruct (prefix_ci w s); [|contradiction].
    destruct H as [H|[]]. injection H as _ <-. exists []. auto.
  - apply in_run_seq in H. destruct H as [s' [c' [H1 H2]]].
    destruct (IH1 _ _ _ _ H1) as [n1 [-> F1]]. destruct (IH2 _ _ _ _ H2) as [n2 [-> F2]].
    exists (n2 ++ n1). split; [apply app_assoc|].
    apply Forall_app. simpl. split.
    + eapply Forall_impl; [|exact F2]. intros nv Hn. apply in_or_app. auto.
    + eapply Forall_impl; [|exact F1]. intros nv Hn. apply in_or_app. auto.
  - simpl in H. apply in_app_or in H. simpl.
    destruct H as [H|H]; [destruct (IH1 _ _ _ _ H) as [nw [-> F]] | destruct (IH2 _ _ _ _ H) as [nw [-> F]]];
      exists nw; split; auto; eapply Forall_impl; try exact F; intros nv Hn; apply in_or_app; auto.
  - apply in_run_opt in H. destruct H as [H|[_ ->]]; eauto. exists []. auto.
  - apply in_run_group in H. destruct H as [c' [-> H]].
    destruct (IH1 _ _ _ _ H) as [nw [-> F]].
    exists ((n, firstn (List.length s - List.length s1) s) :: nw). split; [reflexivity|].
    constructor; [simpl; auto|]. eapply Forall_impl; [|exact F]. simpl. auto.
Qed.

(** ** [get_hours_minutes] on the text [time_re] captures *)

Lemma digit_not_colon a : is_digit a = true -> is_colon a = false.
Proof.
  intros H. unfold is_colon. destruct (Ascii.eqb_spec a ":"%char) as [->|]; [discriminate H|].
  reflexivity.
Qed.

Lemma digits_no_colon w : forallb is_digit w = true -> existsb is_colon w = false.
Proof.
  induction w as [|a w IH]; simpl; [reflexivity|].
  intros H. apply andb_true_iff in H. destruct H as [Ha Hw].
  rewrite digit_not_colon, IH; auto.
Qed.

Lemma split_colon_nocolon w : existsb is_colon w = false -> split_colon w = [w].
Proof.
  induction w as [|a w IH]; simpl; [reflexivity|].
  intros H. apply orb_false_iff in H. destruct H as [Ha Hw].
  rewrite Ha, IH; auto.
Qed.

Lemma split_colon_app x a y :
  existsb is_colon x = false -> is_colon a = true ->
  split_colon (x ++ a :: y) = x :: split_colon y.
Proof.
  intros Hx Ha. induction x as [|b x IH]; simpl.
  - rewrite Ha. reflexivity.
  - simpl in Hx. apply orb_false_iff in Hx. destruct Hx as [Hb Hx].
    rewrite Hb, IH; auto.
Qed.

Lemma py_int_digits w : w <> [] -> forallb is_digit w = true ->
  (List.length w <= int_max_str_digits)%nat -> exists z, py_int w = Some z.
Proof.
  intros Hne H Hl. destruct w as [|a w]; [contradiction|].
  unfold py_int. rewrite H.
  destruct (Nat.ltb_spec int_max_str_digits (List.length (a :: w))); [lia|]. eauto.
Qed.

Lemma get_hours_minutes_digits w :
  w <> [] -> forallb is_digit w = true -> (List.length w <= int_max_str_digits)%nat ->
  exists hm, get_hours_minutes w = Some hm.
Proof.
  intros Hne H Hl. unfold get_hours_minutes. rewrite digits_no_colon by exact H.
  destruct (py_int_digits w Hne H Hl) as [z ->]. eauto.
Qed.

Lemma get_hours_minutes_colon x a y :
  x <> [] -> y <> [] -> forallb is_digit x = true -> forallb is_digit y = true ->
  (List.length x <= int_max_str_digits)%nat -> (List.length y <= int_max_str_digits)%nat ->
  is_colon a = true -> exists hm, get_hours_minutes (x ++ a :: y) = Some hm.
Proof.
  intros Hx Hy Dx Dy Lx Ly Ha. unfold get_hours_minutes.
  rewrite existsb_app. simpl. rewrite Ha, orb_true_r.
  rewrite split_colon_app, split_colon_nocolon; auto using digits_no_colon.
  destruct (py_int_digits x Hx Dx Lx) as [h ->].
  destruct (py_int_digits y Hy Dy Ly) as [m ->]. eauto.
Qed.

(** ** Runs of digits *)

Lemma span_app p w t : (span p w <= span p (w ++ t))%nat.
Proof.
  induction w as [|a w IH]; simpl; [lia|].
  destruct (p a); lia.
Qed.

Lemma span_forallb p w t : forallb p w = true -> (List.length w <= span p (w ++ t))%nat.
Proof.
  induction w as [|a w IH]; simpl; [lia|].
  intros H. apply andb_true_iff in H. destruct H as [Ha Hw]. rewrite Ha.
  specialize (IH Hw). lia.
Qed.

Lemma digit_run_max_app_l pre s : (digit_run_max s <= digit_run_max (pre ++ s))%nat.
Proof.
  induction pre as [|a pre IH]; [simpl; lia|].
  change (digit_run_max ((a :: pre) ++ s))
    with (Nat.max (span is_digit (a :: pre ++ s)) (digit_run_max (pre ++ s))).
  lia.
Qed.

Lemma digit_run_max_app_r w t : (digit_run_max w <= digit_run_max (w ++ t))%nat.
Proof.
  induction w as [|a w IH]; [simpl; lia|].
  change (digit_run_max ((a :: w) ++ t))
    with (Nat.max (span is_digit ((a :: w) ++ t)) (digit_run_max (w ++ t))).
  change (digit_run_max (a :: w))
    with (Nat.max (span is_digit (a :: w)) (digit_run_max w)).
  pose proof (span_app is_digit (a :: w) t). lia.
Qed.

Lemma digit_run_max_infix pre w post :
  (digit_run_max w <= digit_run_max (pre ++ w ++ post))%nat.
Proof.
  pose proof (digit_run_max_app_r w post).
  pose proof (digit_run_max_app_l pre (w ++ post)). lia.
Qed.

Lemma digit_run_max_digits w :
  forallb is_digit w = true -> (List.length w <= digit_run_max w)%nat.
Proof.
  destruct w as [|a w]; [simpl; lia|]. intros H.
  change (digit_run_max (a :: w)) with (Nat.max (span is_digit (a :: w)) (digit_run_max w)).
  pose proof (span_forallb is_digit (a :: w) [] H) as S. rewrite app_nil_r in S. lia.
Qed.

(** [get_hours_minutes] parses every text of [time_re] whose digit runs
    stay within the limit of [int]. *)
Lemma time_text_parse w :
  time_text w -> (digit_run_max w <= int_max_str_digits)%nat ->
  exists hm, get_hours_minutes w = Some hm.
Proof.
  intros [[Ne D]|[x [a [y [-> [Ha [[Nx Dx] [Ny Dy]]]]]]]] Hl.
  - pose proof (digit_run_max_digits w D). apply get_hours_minutes_digits; auto. lia.
  - pose proof (digit_run_max_digits x Dx). pose proof (digit_run_max_digits y Dy).
    pose proof (digit_run_max_infix [] x (a :: y)).
    pose proof (digit_run_max_infix (x ++ [a]) y []).
    rewrite app_nil_r, <- app_assoc in *. cbn [app] in *.
    apply get_hours_minutes_colon; auto; lia.
Qed.

Lemma in_run_digits s c s1 c1 :
  In (s1, c1) (run digits s c) ->
  exists w, s = w ++ s1 /\ w <> [] /\ forallb is_digit w = true /\ c1 = c.
Proof.
  intros H. apply in_run_seq in H. destruct H as [s' [c' [H1 H2]]].
  apply in_run_class in H1. destruct H1 as [a [-> [Ha ->]]].
  apply in_run_star in H2. destruct H2 as [w [-> [Hw ->]]].
  exists (a :: w). repeat split; [discriminate|]. simpl. rewrite Ha. exact Hw.
Qed.

Lemma time_text_nonempty w : time_text w -> w <> [].
Proof.
  intros [[Ne _]|[x [a [y [-> _]]]]]; [exact Ne|]. destruct x; discriminate.
Qed.

Lemma in_run_time_re s c s1 c1 :
  In (s1, c1) (run time_re s c) ->
  exists w, s = w ++ s1 /\ c1 = c /\ time_text w.
Proof.
  intros H. apply in_run_seq in H. destruct H as [s' [c' [H1 H2]]].
  apply in_run_digits in H1. destruct H1 as [d1 [-> [N1 [D1 ->]]]].
  apply in_run_opt in H2. destruct H2 as [H2|[-> ->]].
  2: { exists d1. split; [reflexivity|]. split; [reflexivity|]. left. split; assumption. }
  apply in_run_seq in H2. destruct H2 as [s2 [c2 [H3 H4]]].
  apply in_run_digits in H4. destruct H4 as [d2 [-> [N2 [D2 ->]]]].
  apply in_run_opt in H3. destruct H3 as [H3|[Hs ->]].
  - apply in_run_class in H3. destruct H3 as [a [Hs [Ha ->]]].
    exists (d1 ++ a :: d2). split; [subst; rewrite <- app_assoc; reflexivity|].
    split; [reflexivity|]. right. exists d1, a, d2. repeat split; auto.
  - exists (d1 ++ d2). split; [subst; rewrite <- app_assoc; reflexivity|].
    split; [reflexivity|]. left. split.
    + destruct d1; [contradiction|discriminate].
    + rewrite forallb_app, D1, D2. reflexivity.
Qed.

(** ** Captures of the extractor *)

Lemma firstn_prefix (w s1 : str) :
  firstn (List.length (w ++ s1) - List.length s1) (w ++ s1) = w.
Proof.
  rewrite length_app. replace (List.length w + List.length s1 - List.length s1)
    with (List.length w) by lia.
  rewrite firstn_app, firstn_all, Nat.sub_diag. simpl. apply app_nil_r.
Qed.

Lemma run_caps_ok r : groups_ok r -> forall s c s1 c1,
  In (s1, c1) (run r s c) -> Forall cap_ok c -> Forall cap_ok c1.
Proof.
  induction r as [p|p|w|r1 IH1 r2 IH2|r1 IH1 r2 IH2|r1 IH1|n r1 IH1];
    simpl; intros G s c s1 c1 H Hc.
  - apply in_run_class in H. destruct H as [_ [_ [_ ->]]]. exact Hc.
  - apply in_run_star in H. destruct H as [_ [_ [_ ->]]]. exact Hc.
  - destruct (prefix_ci w s); [|contradiction].
    destruct H as [H|[]]. injection H as _ <-. exact Hc.
  - destruct G as [G1 G2]. apply in_flat_map in H. destruct H as [[s' c'] [H1 H2]].
    eauto.
  - destruct G as [G1 G2]. apply in_app_or in H. destruct H; eauto.
  - apply in_app_or in H. destruct H as [H|[H|[]]]; [eauto|].
    injection H as _ <-. exact Hc.
  - destruct G as [G0 G1]. apply in_map_iff in H. destruct H as [[s' c'] [Hx Hin]].
    injection Hx as <- <-. constructor; [|eauto].
    intros Ht. simpl in Ht. rewrite (G0 Ht) in Hin.
    apply in_run_time_re in Hin. destruct Hin as [w [-> [_ Hw]]].
    simpl. rewrite firstn_prefix. exact Hw.
Qed.

Lemma group_in n c w : group n c = Some w -> In (n, w) c.
Proof.
  induction c as [|[m v] c IH]; simpl; [discriminate|].
  destruct (String.eqb_spec n m) as [->|_].
  - intros H. injection H as ->. auto.
  - auto.
Qed.

Lemma group_skip n new c :
  Forall (fun nv => In (fst nv) ["SI"; "end_time"; "EI"]%string) new ->
  n = "start_time"%string -> group n (new ++ c) = group n c.
Proof.
  intros F ->. induction F as [|[m v] new Hm F IH]; [reflexivity|].
  simpl in Hm. cbn [app group]. rewrite IH.
  destruct (String.eqb_spec "start_time" m) as [<-|]; [|reflexivity].
  destruct Hm as [H|[H|[H|[]]]]; discriminate H.
Qed.

Lemma available_time_regex_groups_ok : groups_ok available_time_regex.
Proof.
  simpl. repeat split; try reflexivity; discriminate.
Qed.

(** Every match of [available_time_regex] captures a [start_time]; the
    [start_time] and [end_time] texts are texts of [time_re]. *)
Lemma available_time_match_ok s s1 c1 :
  In (s1, c1) (run available_time_regex s []) ->
  (exists w, group "start_time" c1 = Some w /\ time_text w) /\
  (forall w, group "end_time" c1 = Some w -> time_text w).
Proof.
  intros H.
  assert (Hok : Forall cap_ok c1)
    by (eapply run_caps_ok; [apply available_time_regex_groups_ok | exact H | constructor]).
  rewrite Forall_forall in Hok.
  split.
  - unfold available_time_regex in H. apply in_run_seq in H.
    destruct H as [s' [c' [H1 H2]]].
    apply in_run_group in H1. destruct H1 as [c0 [-> _]].
    apply run_names in H2. destruct H2 as [new [-> F]].
    rewrite group_skip; [|exact F|reflexivity].
    cbn [group]. rewrite String.eqb_refl.
    set (w := firstn _ s).
    assert (Hin : In ("start_time"%string, w) (new ++ ("start_time"%string, w) :: c0))
      by (apply in_or_app; right; left; reflexivity).
    exists w. split; [reflexivity | exact (Hok _ Hin eq_refl)].
  - intros w Hw. apply group_in in Hw. exact (Hok _ Hw eq_refl).
Qed.

(** Every capture is a piece of the text the pattern ran on. *)
Lemma run_caps_infix r : forall s c s1 c1, In (s1, c1) (run r s c) ->
  forall nv, In nv c1 -> In nv c \/ exists pre post, s = pre ++ snd nv ++ post.
Proof.
  induction r as [p|p|w|r1 IH1 r2 IH2|r1 IH1 r2 IH2|r1 IH1|n r1 IH1];
    simpl; intros s c s1 c1 H nv Hnv.
  - apply in_run_class in H. destruct H as [_ [_ [_ ->]]]. left. exact Hnv.
  - apply in_run_star in H. destruct H as [_ [_ [_ ->]]]. left. exact Hnv.
  - destruct (prefix_ci w s); [|contradiction].
    destruct H as [H|[]]. injection H as _ <-. left. exact Hnv.
  - apply in_flat_map in H. destruct H as [[s' c'] [H1 H2]].
    destruct (IH2 _ _ _ _ H2 nv Hnv) as [H|[pre [post E]]].
    + exact (IH1 _ _ _ _ H1 nv H).
    + right. destruct (run_suffix _ _ _ _ _ H1) as [w E'].
      exists (w ++ pre), post. rewrite E', E, <- app_assoc. reflexivity.
  - apply in_app_or in H. destruct H as [H|H]; eauto.
  - apply in_app_or in H. destruct H as [H|[H|[]]]; [eauto|].
    injection H as _ <-. left. exact Hnv.
  - apply in_map_iff in H. destruct H as [[s' c'] [Hx Hin]].
    injection Hx as <- <-. destruct Hnv as [<-|Hnv]; [|eauto].
    right. exists [], (skipn (List.length s - List.length s') s).
    simpl. symmetry. apply firstn_skipn.
Qed.

Lemma finditer_from_match r s k c :
  In c (finditer_from r s k) -> exists s0 s1, In (s1, c) (run r s0 []).
Proof.
  revert k. induction s as [|a s IH]; intros k H; simpl in H.
  - destruct k; [|contradiction].
    unfold re_match in H. destruct (run r [] []) as [|[s1 c1] l] eqn:E; [contradiction|].
    destruct H as [<-|[]]. exists [], s1. rewrite E. left. reflexivity.
  - destruct k as [|k]; [|eauto].
    destruct (re_match r (a :: s)) as [[s1 c1]|] eqn:E; [|eauto].
    destruct H as [<-|H]; [|eauto].
    unfold re_match in E. destruct (run r (a :: s) []) as [|m l] eqn:E'; [discriminate|].
    injection E as ->. exists (a :: s), s1. rewrite E'. left. reflexivity.
Qed.

Lemma finditer_from_suffix r s k c :
  In c (finditer_from r s k) -> exists pre s0 s1, s = pre ++ s0 /\ In (s1, c) (run r s0 []).
Proof.
  revert k. induction s as [|a s IH]; intros k H; simpl in H.
  - destruct k; [|contradiction].
    unfold re_match in H. destruct (run r [] []) as [|[s1 c1] l] eqn:E; [contradiction|].
    destruct H as [<-|[]]. exists [], [], s1. split; [reflexivity|].
    rewrite E. left. reflexivity.
  - destruct k as [|k].
    + destruct (re_match r (a :: s)) as [[s1 c1]|] eqn:E.
      * destruct H as [<-|H].
        -- unfold re_match in E. destruct (run r (a :: s) []) as [|m l] eqn:E'; [discriminate|].
           injection E as ->. exists [], (a :: s), s1. split; [reflexivity|].
           rewrite E'. left. reflexivity.
        -- destruct (IH _ H) as [pre [s0 [s1' [-> H']]]].
           exists (a :: pre), s0, s1'. split; [reflexivity | exact H'].
      * destruct (IH _ H) as [pre [s0 [s1' [-> H']]]].
        exists (a :: pre), s0, s1'. split; [reflexivity | exact H'].
    + destruct (IH _ H) as [pre [s0 [s1' [-> H']]]].
      exists (a :: pre), s0, s1'. split; [reflexivity | exact H'].
Qed.

(** A [start_time] or [end_time] capture is parsed by [get_hours_minutes]
    when no run of digits of the line exceeds the limit of [int]. *)
Lemma finditer_capture_parse line c n w :
  In c (finditer available_time_regex line) -> time_group n = true ->
  group n c = Some w -> (digit_run_max line <= int_max_str_digits)%nat ->
  exists hm, get_hours_minutes w = Some hm.
Proof.
  intros Hc Hn Hw Hl.
  destruct (finditer_from_suffix _ _ _ _ Hc) as [pre [s0 [s1 [E0 Hr]]]].
  apply group_in in Hw.
  assert (Hok : Forall cap_ok c)
    by (eapply run_caps_ok; [apply available_time_regex_groups_ok | exact Hr | constructor]).
  rewrite Forall_forall in Hok.
  apply time_text_parse; [exact (Hok _ Hw Hn)|].
  destruct (run_caps_infix _ _ _ _ _ Hr _ Hw) as [[]|[p [q E]]].
  cbn [snd] in E. rewrite E0, E in Hl.
  pose proof (digit_run_max_infix (pre ++ p) w q) as Hi.
  rewrite <- app_assoc in Hi. lia.
Qed.

Lemma finditer_temp_ok line c :
  In c (finditer available_time_regex line) ->
  (digit_run_max line <= int_max_str_digits)%nat -> temp_ok (temp_of_match c).
Proof.
  intros Hc Hl. split.
  - destruct (finditer_from_match _ _ _ _ Hc) as [s0 [s1 Hr]].
    destruct (available_time_match_ok _ _ _ Hr) as [[w [Hw _]] _].
    destruct (finditer_capture_parse line c "start_time" w Hc eq_refl Hw Hl) as [hm Hhm].
    exists w, hm. split; [exact Hw | exact Hhm].
  - intros w Hw. exact (finditer_capture_parse line c "end_time" w Hc eq_refl Hw Hl).
Qed.

(** ** The resolver never raises and allocates fresh objects *)

Lemma resolve_fresh t n : temp_ok t ->
  exists x n', resolve t n = Some (x, n') /\
    n <= time_id (start_time x) < n' /\ n <= slot_id x < n'.
Proof.
  intros [[w [hm [Hs Hg]]] He].
  unfold resolve, bind, lift. rewrite Hs, Hg.
  destruct (t_end t) as [[|a w']|] eqn:Et.
  - unfold new_Time, new_TimeSlot. simpl.
    do 2 eexists. split; [reflexivity|]. simpl. lia.
  - destruct (He _ eq_refl) as [hm' Hg']. rewrite Hg'.
    unfold new_Time, new_TimeSlot. simpl.
    do 2 eexists. split; [reflexivity|]. simpl. lia.
  - unfold new_Time, new_TimeSlot. simpl.
    do 2 eexists. split; [reflexivity|]. simpl. lia.
Qed.

Lemma existsb_false_forall {A} (f : A -> bool) l :
  (forall y, In y l -> f y = false) -> existsb f l = false.
Proof.
  induction l as [|a l IH]; simpl; intros H; [reflexivity|].
  rewrite (H a (or_introl eq_refl)), IH; auto.
Qed.

Lemma set_add_fresh set x n :
  Forall (fun y => slot_id y < n /\ time_id (start_time y) < n) set ->
  n <= slot_id x -> n <= time_id (start_time x) ->
  set_add set x = set ++ [x].
Proof.
  intros Hb Hs Ht. unfold set_add.
  rewrite existsb_false_forall; [reflexivity|].
  intros y Hy. rewrite Forall_forall in Hb. destruct (Hb y Hy) as [Hy1 Hy2].
  unfold timeslot_eq, time_eq.
  destruct (Nat.eqb_spec (slot_id y) (slot_id x)); [lia|].
  destruct (Nat.eqb_spec (time_id (start_time y)) (time_id (start_time x))); [lia|].
  reflexivity.
Qed.

Lemma add_all_grows ts : Forall temp_ok ts -> forall set n,
  Forall (fun y => slot_id y < n /\ time_id (start_time y) < n) set ->
  exists set' n', add_all ts set n = Some (set', n') /\
    List.length set' = List.length set + List.length ts.
Proof.
  induction 1 as [|t ts Ht Hts IH]; intros set n Hb.
  - exists set, n. split; [reflexivity|]. simpl. lia.
  - destruct (resolve_fresh t n Ht) as [x [n1 [Hr [Hxt Hxs]]]].
    simpl. unfold bind. rewrite Hr.
    rewrite (set_add_fresh set x n Hb) by lia.
    destruct (IH (set ++ [x]) n1) as [set' [n' [Ha Hl]]].
    + apply Forall_app. split.
      * eapply Forall_impl; [|exact Hb]. simpl. intros y Hy. lia.
      * constructor; [lia | constructor].
    + exists set', n'. split; [exact Ha|]. rewrite Hl, length_app. simpl. lia.
Qed.

(** Claim C9, as stated, is refuted: on the line of 4301 digits ["1"]
    the extractor yields one match whose [start_time] is the whole line, and
    [int] raises [ValueError] on it (more than 4300 digits). *)
Lemma long_digit_run_raises :
  map raw_match (finditer available_time_regex (repeat "1"%char 4301)) =
    [(Some (repeat "1"%char 4301), None, None, None)] /\
  get_available_times_from_line (repeat "1"%char 4301) = None.
Proof. lazy. split; reflexivity. Qed.

(** Claim C9, amended: on every line with no run of more than 4300
    consecutive digits the pipeline returns a set without raising; the set
    holds exactly one [TimeSlot] per raw match of the extractor (distinct
    [Time] objects never compare equal), and it is empty when the line has
    no match. *)
Theorem get_available_times_total (line : str) :
  (digit_run_max line <= int_max_str_digits)%nat ->
  exists slots, get_available_times_from_line line = Some slots /\
    List.length slots = List.length (finditer available_time_regex line) /\
    (finditer available_time_regex line = [] -> slots = []).
Proof.
  intros Hl.
  assert (Hok : Forall temp_ok (map temp_of_match (finditer available_time_regex line))).
  { apply Forall_map, Forall_forall. intros c Hc. exact (finditer_temp_ok line c Hc Hl). }
  destruct (add_all_grows _ Hok [] 0 (Forall_nil _)) as [set' [n' [Ha Hl']]].
  exists set'. unfold get_available_times_from_line. rewrite Ha.
  rewrite length_map in Hl'. simpl in Hl'.
  split; [reflexivity|]. split; [exact Hl'|].
  intros E. rewrite E in Hl'. apply length_zero_iff_nil. exact Hl'.
Qed.

Lemma get_available_times_total_witness :
  (digit_run_max (L "7-9pm, 10pm") <= int_max_str_digits)%nat /\
  exists slots, get_available_times_from_line (L "7-9pm, 10pm") = Some slots /\
    List.length slots = List.length (finditer available_time_regex (L "7-9pm, 10pm")) /\
    (finditer available_time_regex (L "7-9pm, 10pm") = [] -> slots = []).
Proof.
  assert (H : (digit_run_max (L "7-9pm, 10pm") <= int_max_str_digits)%nat)
    by (apply Nat.leb_le; vm_compute; reflexivity).
  split; [exact H | exact (get_available_times_total _ H)].
Defined.

(** ** Captures of the meridiem groups *)

Lemma run_caps_sat Q r : groups_sat Q r -> forall s c s1 c1,
  In (s1, c1) (run r s c) -> Forall (fun nv => Q (fst nv) (snd nv)) c ->
  Forall (fun nv => Q (fst nv) (snd nv)) c1.
Proof.
  induction r as [p|p|w|r1 IH1 r2 IH2|r1 IH1 r2 IH2|r1 IH1|n r1 IH1];
    simpl; intros G s c s1 c1 H Hc.
  - apply in_run_class in H. destruct H as [_ [_ [_ ->]]]. exact Hc.
  - apply in_run_star in H. destruct H as [_ [_ [_ ->]]]. exact Hc.
  - destruct (prefix_ci w s); [|contradiction].
    destruct H as [H|[]]. injection H as _ <-. exact Hc.
  - destruct G as [G1 G2]. apply in_flat_map in H. destruct H as [[s' c'] [H1 H2]].
    eauto.
  - destruct G as [G1 G2]. apply in_app_or in H. destruct H; eauto.
  - apply in_app_or in H. destruct H as [H|[H|[]]]; [eauto|].
    injection H as _ <-. exact Hc.
  - destruct G as [G0 G1]. apply in_map_iff in H. destruct H as [[s' c'] [Hx Hin]].
    injection Hx as <- <-. constructor; [exact (G0 _ _ _ _ Hin)|eauto].
Qed.

Lemma prefix_ci_firstn lit s :
  prefix_ci lit s = true ->
  List.length lit <= List.length s /\ map lower (firstn (List.length lit) s) = map lower lit.
Proof.
  revert s; induction lit as [|a lit IH]; intros [|b s] H; simpl in *;
    try discriminate; auto with arith.
  apply andb_true_iff in H. destruct H as [Hab H].
  apply Ascii.eqb_eq in Hab. destruct (IH s H) as [Hl Hm].
  split; [lia|]. rewrite Hab, Hm. reflexivity.
Qed.

Lemma lit_capture lit s c s1 c1 :
  In (s1, c1) (run (RLit lit) s c) ->
  map lower (firstn (List.length s - List.length s1) s) = map lower lit.
Proof.
  simpl. destruct (prefix_ci lit s) eqn:E; [|contradiction].
  intros [H|[]]. injection H as <- _.
  destruct (prefix_ci_firstn lit s E) as [Hl Hm].
  rewrite length_skipn. replace (List.length s - (List.length s - List.length lit))
    with (List.length lit) by lia.
  exact Hm.
Qed.

Lemma indicator_capture s c s1 c1 :
  In (s1, c1) (run indicator_alts s c) ->
  am_spelling (firstn (List.length s - List.length s1) s)
  || pm_spelling (firstn (List.length s - List.length s1) s) = true.
Proof.
  intros H. unfold indicator_alts in H. cbn [run] in H.
  unfold am_spelling, pm_spelling.
  repeat (apply in_app_or in H; destruct H as [H|H]);
    apply lit_capture in H; rewrite H; reflexivity.
Qed.

Lemma available_time_regex_indicators : groups_sat indicator_cap available_time_regex.
Proof.
  unfold available_time_regex, indicator_cap. cbn [groups_sat].
  repeat split; intros;
    first [ match goal with H : _ \/ _ |- _ => destruct H as [H|H]; discriminate H end
          | eapply indicator_capture; eassumption ].
Qed.

Lemma group_none n c : Forall (fun nv => fst nv <> n) c -> group n c = None.
Proof.
  induction 1 as [|[m v] c Hm _ IH]; [reflexivity|].
  cbn [group]. simpl in Hm. destruct (String.eqb_spec n m); [congruence|exact IH].
Qed.

Lemma run_indicator_no_caps s c s1 c1 : In (s1, c1) (run indicator_alts s c) -> c1 = c.
Proof.
  intros H. apply run_names in H. destruct H as [[|nv new] [-> F]]; [reflexivity|].
  inversion F as [|x l Hx _]. destruct Hx.
Qed.

(** A match captures [end_time] exactly when it captures [EI]. *)
Lemma available_time_end_group s s1 c1 :
  In (s1, c1) (run available_time_regex s []) ->
  (group "end_time" c1 = None /\ group "EI" c1 = None) \/
  (exists e w, group "end_time" c1 = Some e /\ group "EI" c1 = Some w).
Proof.
  intros H. unfold available_time_regex in H.
  apply in_run_seq in H. destruct H as [sA [cA [HA H]]].
  apply in_run_seq in H. destruct H as [sB [cB [HB H]]].
  apply in_run_seq in H. destruct H as [sC [cC [HC HD]]].
  apply in_run_opt in HD. destruct HD as [HD|[_ ->]].
  - right.
    apply in_run_seq in HD. destruct HD as [s2 [c2 [H1 HD]]].
    apply in_run_class in H1. destruct H1 as [_ [_ [_ ->]]].
    apply in_run_seq in HD. destruct HD as [s3 [c3 [H2 HD]]].
    apply in_run_group in H2. destruct H2 as [c4 [-> H2]].
    apply in_run_time_re in H2. destruct H2 as [_ [_ [-> _]]].
    apply in_run_seq in HD. destruct HD as [s5 [c5 [H3 H4]]].
    apply in_run_star in H3. destruct H3 as [_ [_ [_ ->]]].
    apply in_run_group in H4. destruct H4 as [c6 [-> H4]].
    apply run_indicator_no_caps in H4. subst c6.
    do 2 eexists. split; reflexivity.
  - left.
    apply run_names in HA. destruct HA as [nA [-> FA]].
    apply in_run_star in HB. destruct HB as [_ [_ [_ ->]]].
    apply run_names in HC. destruct HC as [nC [-> FC]].
    rewrite app_nil_r in *.
    assert (F : Forall (fun nv => In (fst nv) ["start_time"; "SI"]%string) (nC ++ nA)).
    { apply Forall_app. split.
      - eapply Forall_impl; [|exact FC]. simpl. tauto.
      - eapply Forall_impl; [|exact FA]. simpl. tauto. }
    split; apply group_none; eapply Forall_impl; try exact F;
      simpl; intros nv [E|[E|[]]]; rewrite <- E; discriminate.
Qed.

(** ** Facts about each match [finditer] yields *)

Lemma spelling_nonempty w : am_spelling w || pm_spelling w = true -> truthy w = true.
Proof. destruct w; [discriminate | reflexivity]. Qed.

Lemma re_match_b_twelve s :
  re_match_b twelve_hour_format_regex s = re_match_b am_format_regex s || re_match_b pm_format_regex s.
Proof.
  unfold re_match_b, re_match, twelve_hour_format_regex, indicator_alts,
    am_format_regex, pm_format_regex, am_alts, pm_alts.
  cbn [run app].
  destruct (prefix_ci (L "am") s), (prefix_ci (L "a.m") s), (prefix_ci (L "a.m.") s),
    (prefix_ci (L "pm") s), (prefix_ci (L "p.m") s), (prefix_ci (L "p.m.") s); reflexivity.
Qed.

Lemma spelling_twelve w :
  am_spelling w || pm_spelling w = true -> re_match_b twelve_hour_format_regex w = true.
Proof.
  intros H. rewrite re_match_b_twelve. apply orb_true_iff in H. destruct H as [H|H].
  - destruct (am_spelling_match w H) as [-> _]. reflexivity.
  - destruct (pm_spelling_match w H) as [_ ->]. apply orb_true_r.
Qed.

Lemma finditer_match_facts line c :
  In c (finditer available_time_regex line) ->
  (exists w, group "start_time" c = Some w /\ time_text w) /\
  (forall w, group "end_time" c = Some w -> time_text w) /\
  (forall w, group "SI" c = Some w -> am_spelling w || pm_spelling w = true) /\
  (forall w, group "EI" c = Some w -> am_spelling w || pm_spelling w = true) /\
  ((group "end_time" c = None /\ group "EI" c = None) \/
   (exists e v, group "end_time" c = Some e /\ group "EI" c = Some v)).
Proof.
  intros Hc. apply finditer_from_match in Hc. destruct Hc as [s0 [s1 Hc]].
  destruct (available_time_match_ok _ _ _ Hc) as [H1 H2].
  pose proof (run_caps_sat _ _ available_time_regex_indicators _ _ _ _ Hc (Forall_nil _)) as F.
  rewrite Forall_forall in F.
  repeat split; auto.
  - intros w Hw. apply group_in in Hw. apply (F _ Hw). left. reflexivity.
  - intros w Hw. apply group_in in Hw. apply (F _ Hw). right. reflexivity.
  - exact (available_time_end_group _ _ _ Hc).
Qed.

Lemma twelve_empty : re_match_b twelve_hour_format_regex [] = false.
Proof. reflexivity. Qed.

(** The classifier of the first loop: a match is taken as 24-hour exactly
    when it has neither indicator. *)
Lemma uses24_of_match line c :
  In c (finditer available_time_regex line) ->
  t_uses24 (temp_of_match c) =
  match group "SI" c, group "EI" c with None, None => true | _, _ => false end.
Proof.
  intros Hc. destruct (finditer_match_facts line c Hc) as [_ [_ [HSI [HEI _]]]].
  unfold temp_of_match. cbn [t_uses24].
  destruct (group "SI" c) as [w|]; destruct (group "EI" c) as [v|]; cbn [or_empty];
    repeat match goal with
    | |- context [re_match_b twelve_hour_format_regex []] => rewrite twelve_empty
    end;
    try rewrite (spelling_twelve w (HSI w eq_refl));
    try rewrite (spelling_twelve v (HEI v eq_refl)); reflexivity.
Qed.

(** ** The second loop, slot by slot *)

Lemma resolve_value_of t n x n' :
  resolve t n = Some (x, n') -> resolve_value t = Some (slot_value x).
Proof.
  unfold resolve_value, resolve, bind, lift.
  destruct (t_start t) as [st|]; [|discriminate].
  destruct (get_hours_minutes st) as [hm|]; [|discriminate].
  destruct (t_end t) as [[|a w]|].
  - intros H. injection H as <- _. reflexivity.
  - destruct (get_hours_minutes (a :: w)) as [ehm|]; [|discriminate].
    intros H. injection H as <- _. reflexivity.
  - intros H. injection H as <- _. reflexivity.
Qed.

Lemma add_all_values ts : Forall temp_ok ts -> forall set n,
  Forall (fun y => slot_id y < n /\ time_id (start_time y) < n) set ->
  exists set' n', add_all ts set n = Some (set', n') /\
    map (fun x => Some (slot_value x)) set' =
    map (fun x => Some (slot_value x)) set ++ map resolve_value ts.
Proof.
  induction 1 as [|t ts Ht Hts IH]; intros set n Hb.
  - exists set, n. split; [reflexivity|]. rewrite app_nil_r. reflexivity.
  - destruct (resolve_fresh t n Ht) as [x [n1 [Hr [Hxt Hxs]]]].
    simpl. unfold bind. rewrite Hr.
    rewrite (set_add_fresh set x n Hb) by lia.
    destruct (IH (set ++ [x]) n1) as [set' [n' [Ha Hl]]].
    + apply Forall_app. split.
      * eapply Forall_impl; [|exact Hb]. simpl. intros y Hy. lia.
      * constructor; [lia | constructor].
    + exists set', n'. split; [exact Ha|]. rewrite Hl, map_app, <- app_assoc.
      simpl. rewrite (resolve_value_of t n x n1 Hr). reflexivity.
Qed.

Lemma resolve_some_fresh t n x n' :
  resolve t n = Some (x, n') ->
  n <= time_id (start_time x) < n' /\ n <= slot_id x < n'.
Proof.
  unfold resolve, bind, lift.
  destruct (t_start t) as [st|]; [|discriminate].
  destruct (get_hours_minutes st) as [hm|]; [|discriminate].
  destruct (t_end t) as [[|a w]|].
  - unfold new_Time, new_TimeSlot. simpl. intros H. injection H as <- <-. simpl. lia.
  - destruct (get_hours_minutes (a :: w)) as [ehm|]; [|discriminate].
    unfold new_Time, new_TimeSlot. simpl. intros H. injection H as <- <-. simpl. lia.
  - unfold new_Time, new_TimeSlot. simpl. intros H. injection H as <- <-. simpl. lia.
Qed.

(** When the second loop returns, it has added one slot per [temp] entry,
    with the values of that entry alone. *)
Lemma add_all_some ts : forall set n set' n',
  Forall (fun y => slot_id y < n /\ time_id (start_time y) < n) set ->
  add_all ts set n = Some (set', n') ->
  map (fun x => Some (slot_value x)) set' =
  map (fun x => Some (slot_value x)) set ++ map resolve_value ts.
Proof.
  induction ts as [|t ts IH]; intros set n set' n' Hb H.
  - simpl in H. injection H as <- _. rewrite app_nil_r. reflexivity.
  - simpl in H. unfold bind in H.
    destruct (resolve t n) as [[x n1]|] eqn:Hr; [|discriminate].
    destruct (resolve_some_fresh t n x n1 Hr) as [Hxt Hxs].
    rewrite (set_add_fresh set x n Hb) in H by lia.
    rewrite (IH (set ++ [x]) n1 set' n').
    + rewrite map_app, <- app_assoc. simpl. rewrite (resolve_value_of t n x n1 Hr).
      reflexivity.
    + apply Forall_app. split.
      * eapply Forall_impl; [|exact Hb]. simpl. intros y Hy. lia.
      * constructor; [lia | constructor].
    + exact H.
Qed.

Lemma pipeline_some line slots :
  get_available_times_from_line line = Some slots ->
  map (fun x => Some (slot_value x)) slots =
  map (fun c => resolve_value (temp_of_match c)) (finditer available_time_regex line).
Proof.
  unfold get_available_times_from_line.
  destruct (add_all _ [] 0) as [[set' n']|] eqn:Ha; [|discriminate].
  intros H. injection H as <-.
  rewrite (add_all_some _ [] 0 set' n' (Forall_nil _) Ha), map_map. reflexivity.
Qed.

Lemma pipeline_values line :
  (digit_run_max line <= int_max_str_digits)%nat ->
  exists slots, get_available_times_from_line line = Some slots /\
    map (fun x => Some (slot_value x)) slots =
    map (fun c => resolve_value (temp_of_match c)) (finditer available_time_regex line).
Proof.
  intros Hl.
  assert (Hok : Forall temp_ok (map temp_of_match (finditer available_time_regex line))).
  { apply Forall_map, Forall_forall. intros c Hc. exact (finditer_temp_ok line c Hc Hl). }
  destruct (add_all_values _ Hok [] 0 (Forall_nil _)) as [set' [n' [Ha Hl']]].
  exists set'. unfold get_available_times_from_line. rewrite Ha.
  split; [reflexivity|]. rewrite Hl', map_map. reflexivity.
Qed.

(** A slot the second loop built: its start text was parsed, and so was a
    non-empty end text. *)
Lemma resolve_value_parse t v :
  resolve_value t = Some v ->
  (exists st h m, t_start t = Some st /\ get_hours_minutes st = Some (h, m)) /\
  (forall e, t_end t = Some e -> e <> [] -> exists ehm, get_hours_minutes e = Some ehm).
Proof.
  unfold resolve_value, resolve, bind, lift.
  destruct (t_start t) as [st|]; [|discriminate].
  destruct (get_hours_minutes st) as [[h m]|] eqn:Hg; [|discriminate].
  intros H. split; [exists st, h, m; split; [reflexivity | exact Hg]|].
  intros e He Ne. rewrite He in H. destruct e as [|a w]; [contradiction|].
  destruct (get_hours_minutes (a :: w)) as [ehm|]; [eauto | discriminate].
Qed.

Lemma get_hours_minutes_nonempty w hm : get_hours_minutes w = Some hm -> w <> [].
Proof. intros H ->. discriminate H. Qed.

(** A match without an end time: the start hour is converted with the start
    indicator, or as PM when there is none. *)
Lemma match_value_no_end line c st h m :
  In c (finditer available_time_regex line) ->
  group "start_time" c = Some st -> get_hours_minutes st = Some (h, m) ->
  group "end_time" c = None ->
  resolve_value (temp_of_match c) =
  Some ((get_24_hour_format h (match group "SI" c with Some w => w | None => L "pm" end), m), None).
Proof.
  intros Hc Hst Hg Het.
  pose proof (uses24_of_match line c Hc) as U.
  destruct (finditer_match_facts line c Hc) as [_ [_ [HSI [_ Hend]]]].
  destruct Hend as [[_ HEI]|[e [v [He _]]]]; [|congruence].
  rewrite HEI in U.
  unfold resolve_value, resolve, bind, lift.
  change (t_start (temp_of_match c)) with (group "start_time" c). rewrite Hst.
  change (t_end (temp_of_match c)) with (group "end_time" c). rewrite Het.
  rewrite Hg, U.
  replace (t_SI (temp_of_match c)) with (or_empty (group "SI" c)) by reflexivity.
  destruct (group "SI" c) as [w|] eqn:E; cbn [or_empty negb fst snd].
  - rewrite (spelling_nonempty w (HSI w eq_refl)). reflexivity.
  - reflexivity.
Qed.

(** A match with an end time (it then has an end indicator [v]): with a
    start indicator [w] both hours are converted with [w]; without one the
    start hour is reduced mod 24 and converted with [v], and the end hour is
    kept as written. *)
Lemma match_value_end line c st h m e eh em v :
  In c (finditer available_time_regex line) ->
  group "start_time" c = Some st -> get_hours_minutes st = Some (h, m) ->
  group "end_time" c = Some e -> get_hours_minutes e = Some (eh, em) ->
  group "EI" c = Some v ->
  resolve_value (temp_of_match c) =
  Some (match group "SI" c with
        | Some w => ((get_24_hour_format h w, m), Some (get_24_hour_format eh w, em))
        | None => ((get_24_hour_format (get_24_hour_format h []) v, m), Some (eh, em))
        end).
Proof.
  intros Hc Hst Hg Het Hge HEI.
  pose proof (uses24_of_match line c Hc) as U.
  destruct (finditer_match_facts line c Hc) as [_ [_ [HSI [HEIs _]]]].
  rewrite HEI in U.
  assert (Uf : t_uses24 (temp_of_match c) = false)
    by (rewrite U; destruct (group "SI" c); reflexivity).
  pose proof (spelling_nonempty v (HEIs v HEI)) as Tv.
  destruct e as [|a e']; [destruct (get_hours_minutes_nonempty _ _ Hge eq_refl)|].
  unfold resolve_value, resolve, bind, lift.
  change (t_start (temp_of_match c)) with (group "start_time" c). rewrite Hst.
  change (t_end (temp_of_match c)) with (group "end_time" c). rewrite Het.
  change (t_EI (temp_of_match c)) with (or_empty (group "EI" c)). rewrite HEI. cbn [or_empty].
  rewrite Hg, Hge, Uf.
  replace (t_SI (temp_of_match c)) with (or_empty (group "SI" c)) by reflexivity.
  destruct (group "SI" c) as [w|] eqn:E; cbn [or_empty negb fst snd].
  - pose proof (spelling_nonempty w (HSI w eq_refl)) as Tw.
    unfold end_adjust. rewrite Tw, Tv. reflexivity.
  - unfold end_adjust. rewrite Tv. reflexivity.
Qed.

(** ** [get_24_hour_format], [str] and [int] *)

Lemma get_24_hour_format_bound h s : (0 <= get_24_hour_format h s <= 23)%Z.
Proof.
  unfold get_24_hour_format.
  match goal with |- context [(?x mod 24)%Z] => pose proof (Z.mod_pos_bound x 24) end.
  lia.
Qed.

Lemma re_match_b_am_lower s : re_match_b am_format_regex s = re_match_b am_format_regex (map lower s).
Proof. rewrite !re_match_b_am, !(prefix_ci_lower _ s), !(prefix_ci_lower _ (map lower s)),
  map_map, (map_ext _ _ lower_idem). reflexivity. Qed.

Lemma re_match_b_pm_lower s : re_match_b pm_format_regex s = re_match_b pm_format_regex (map lower s).
Proof. rewrite !re_match_b_pm, !(prefix_ci_lower _ s), !(prefix_ci_lower _ (map lower s)),
  map_map, (map_ext _ _ lower_idem). reflexivity. Qed.

Lemma nat_digits_spec fuel : forall n acc, (n < fuel)%nat ->
  exists d, nat_digits fuel n acc = d ++ acc /\ d <> [] /\ forallb is_digit d = true /\
    fold_left (fun acc a => (acc * 10 + digit_val a)%Z) d 0%Z = Z.of_nat n.
Proof.
  induction fuel as [|f IH]; intros n acc Hn; [lia|].
  cbn [nat_digits].
  assert (Hm : (n mod 10 < 10)%nat) by (apply Nat.mod_upper_bound; lia).
  assert (Hd : nat_of_ascii (ascii_of_nat (48 + n mod 10)) = (48 + n mod 10)%nat)
    by (apply nat_ascii_embedding; lia).
  remember (ascii_of_nat (48 + n mod 10)) as dg eqn:Edg. clear Edg.
  assert (Dd : is_digit dg = true)
    by (unfold is_digit; rewrite Hd; apply andb_true_iff; split; apply Nat.leb_le; lia).
  assert (Vd : digit_val dg = Z.of_nat (n mod 10))
    by (unfold digit_val; rewrite Hd; f_equal; lia).
  destruct (Nat.ltb_spec n 10) as [Hlt|Hge].
  - exists [dg]. split; [reflexivity|].
    split; [discriminate|]. cbn [forallb fold_left]. rewrite Dd, Vd. split; [reflexivity|].
    rewrite Nat.mod_small by exact Hlt. lia.
  - assert (Hq : (n / 10 < f)%nat)
      by (assert (n / 10 < n)%nat by (apply Nat.div_lt; lia); lia).
    destruct (IH (n / 10) (dg :: acc) Hq) as [d [E [Ne [D V]]]].
    exists (d ++ [dg]). rewrite E, <- app_assoc.
    split; [reflexivity|]. split; [destruct d; [contradiction|discriminate]|].
    rewrite forallb_app, D. cbn [forallb]. rewrite Dd. split; [reflexivity|].
    rewrite fold_left_app, V. cbn [fold_left]. rewrite Vd.
    pose proof (Nat.div_mod_eq n 10). lia.
Qed.

Lemma py_str_digits z d : (0 <= z)%Z -> py_str z = Some d ->
  d <> [] /\ forallb is_digit d = true /\ (List.length d <= int_max_str_digits)%nat /\
  py_int d = Some z.
Proof.
  intros Hz E. unfold py_str in E. cbv zeta in E.
  destruct (nat_digits_spec (S (Z.to_nat (Z.abs z))) (Z.to_nat (Z.abs z)) [] ltac:(lia))
    as [d' [E' [Ne [D V]]]].
  rewrite E', app_nil_r in E.
  destruct (Nat.ltb_spec int_max_str_digits (List.length d')) as [|Hl]; [discriminate|].
  destruct (Z.ltb_spec z 0) as [|_]; [lia|]. rewrite app_nil_l in E.
  injection E as <-. split; [exact Ne|]. split; [exact D|]. split; [exact Hl|].
  destruct d' as [|a d']; [contradiction|]. unfold py_int. rewrite D.
  destruct (Nat.ltb_spec int_max_str_digits (List.length (a :: d'))); [lia|].
  rewrite V. f_equal. lia.
Qed.

Lemma split_colon_length w : List.length (split_colon w) = S (List.length (filter is_colon w)).
Proof.
  induction w as [|a w IH]; [reflexivity|]. cbn [split_colon filter].
  destruct (is_colon a); [simpl; rewrite IH; reflexivity|].
  destruct (split_colon w) as [|x xs]; [discriminate IH|]. exact IH.
Qed.

Lemma filter_nonempty_existsb {A} (f : A -> bool) l : filter f l <> [] -> existsb f l = true.
Proof.
  induction l as [|a l IH]; simpl; [contradiction|].
  destruct (f a); [reflexivity|]. exact IH.
Qed.

(** ** Lines without digits *)

Lemma run_seq_nonempty r1 r2 s c :
  run r1 s c <> [] -> (forall s' c', run r2 s' c' <> []) -> run (RSeq r1 r2) s c <> [].
Proof.
  intros H1 H2. cbn [run]. destruct (run r1 s c) as [|[s1 c1] l]; [contradiction|].
  cbn [flat_map]. intros E. apply app_eq_nil in E. destruct E as [E _].
  exact (H2 s1 c1 E).
Qed.

Lemma run_opt_nonempty r s c : run (ROpt r) s c <> [].
Proof. cbn [run]. intros E. apply app_eq_nil in E. destruct E as [_ E]. discriminate E. Qed.

Lemma run_star_nonempty p s c : run (RStar p) s c <> [].
Proof.
  cbn [run]. intros E. apply map_eq_nil in E.
  apply (f_equal (@List.length nat)) in E. rewrite length_rev, length_seq in E.
  discriminate E.
Qed.

Lemma run_available_digit a s : is_digit a = true -> run available_time_regex (a :: s) [] <> [].
Proof.
  intros Ha. unfold available_time_regex.
  apply run_seq_nonempty.
  - cbn [run]. intros E. apply map_eq_nil in E. revert E.
    unfold time_re. apply run_seq_nonempty; [|intros; apply run_opt_nonempty].
    unfold digits. apply run_seq_nonempty; [|intros; apply run_star_nonempty].
    cbn [run]. rewrite Ha. discriminate.
  - intros s' c'. apply run_seq_nonempty; [apply run_star_nonempty|].
    intros s'' c''. apply run_seq_nonempty; intros; apply run_opt_nonempty.
Qed.

Lemma run_available_nondigit s c :
  match s with a :: _ => is_digit a = false | [] => True end ->
  run available_time_regex s c = [].
Proof.
  intros Ha. unfold available_time_regex, time_re, digits. cbn [run].
  destruct s as [|a s]; [reflexivity|]. rewrite Ha. reflexivity.
Qed.

Lemma finditer_no_digit s : forall k,
  forallb (fun a => negb (is_digit a)) s = true -> finditer_from available_time_regex s k = [].
Proof.
  induction s as [|a s IH]; intros k H.
  - cbn [finditer_from]. unfold re_match. rewrite run_available_nondigit by exact I.
    destruct k; reflexivity.
  - cbn [forallb] in H. apply andb_true_iff in H. destruct H as [Ha H].
    apply negb_true_iff in Ha.
    cbn [finditer_from]. destruct k; [|apply IH, H].
    unfold re_match. rewrite run_available_nondigit by exact Ha. apply IH, H.
Qed.

Lemma finditer_digit s :
  forallb (fun a => negb (is_digit a)) s = false -> finditer_from available_time_regex s 0 <> [].
Proof.
  induction s as [|a s IH]; intros H; [discriminate H|].
  cbn [forallb] in H. cbn [finditer_from].
  destruct (re_match available_time_regex (a :: s)) as [[s1 c]|] eqn:E; [discriminate|].
  destruct (is_digit a) eqn:Ha.
  - unfold re_match in E. destruct (run available_time_regex (a :: s) []) eqn:R;
      [destruct (run_available_digit a s Ha R) | discriminate E].
  - apply IH. exact H.
Qed.

Lemma in_map_value {A B} (f : A -> option B) (xs : list B) (l : list A) y :
  map Some xs = map f l -> In y xs -> exists a, In a l /\ f a = Some y.
Proof.
  revert l; induction xs as [|x xs IH]; intros [|a l] E Hy; try discriminate; [destruct Hy|].
  simpl in E. injection E as E1 E2. destruct Hy as [<-|Hy].
  - exists a. split; [left; reflexivity | symmetry; exact E1].
  - destruct (IH l E2 Hy) as [b [Hb Hf]]. exists b. split; [right; exact Hb | exact Hf].
Qed.

(** ** Further properties of the module *)

(** Extra X1: [get_24_hour_format] always returns an hour in 0-23, for
    any integer hour (also far out of range) and any indicator text. *)
Theorem get_24_hour_format_in_range (h : Z) (s : str) :
  (0 <= get_24_hour_format h s <= 23)%Z.
Proof. apply get_24_hour_format_bound. Qed.

(** Extra X2: the indicator is matched case-insensitively: two indicators
    equal up to ASCII letter case give the same conversion. *)
Theorem get_24_hour_format_case_insensitive (h : Z) (s s' : str) :
  map lower s = map lower s' -> get_24_hour_format h s = get_24_hour_format h s'.
Proof.
  intros E. unfold get_24_hour_format.
  rewrite (re_match_b_am_lower s), (re_match_b_am_lower s'),
    (re_match_b_pm_lower s), (re_match_b_pm_lower s'), E.
  reflexivity.
Qed.

Lemma get_24_hour_format_case_insensitive_witness :
  map lower (L "P.M.") = map lower (L "p.m.") /\
  get_24_hour_format 7 (L "P.M.") = get_24_hour_format 7 (L "p.m.").
Proof.
  assert (E : map lower (L "P.M.") = map lower (L "p.m.")) by reflexivity.
  split; [exact E | exact (get_24_hour_format_case_insensitive 7 (L "P.M.") (L "p.m.") E)].
Defined.

(** Extra X3: [get_hours_minutes] inverts decimal printing: for
    non-negative [h] and [m] whose [str] does not raise (at most 4300
    digits), it reads [str(h) + ':' + str(m)] back as [(h, m)], and
    [str(h)] alone as [(h, 0)]. *)
Theorem get_hours_minutes_roundtrip (h m : Z) (sh sm : str) :
  (0 <= h)%Z -> (0 <= m)%Z -> py_str h = Some sh -> py_str m = Some sm ->
  get_hours_minutes (sh ++ [":"%char] ++ sm) = Some (h, m) /\
  get_hours_minutes sh = Some (h, 0%Z).
Proof.
  intros Hh Hm Eh Em.
  destruct (py_str_digits h sh Hh Eh) as [Nh [Dh [_ Ih]]].
  destruct (py_str_digits m sm Hm Em) as [Nm [Dm [_ Im]]].
  unfold get_hours_minutes. split.
  - rewrite existsb_app. cbn [app existsb]. rewrite orb_true_r.
    rewrite split_colon_app, split_colon_nocolon by (reflexivity || auto using digits_no_colon).
    rewrite Ih, Im. reflexivity.
  - rewrite digits_no_colon by exact Dh. rewrite Ih. reflexivity.
Qed.

Lemma get_hours_minutes_roundtrip_witness :
  ((0 <= 730)%Z /\ (0 <= 5)%Z /\ py_str 730 = Some (L "730") /\ py_str 5 = Some (L "5")) /\
  get_hours_minutes (L "730" ++ [":"%char] ++ L "5") = Some (730%Z, 5%Z).
Proof.
  assert (H1 : (0 <= 730)%Z) by lia. assert (H2 : (0 <= 5)%Z) by lia.
  assert (H3 : py_str 730 = Some (L "730")) by (vm_compute; reflexivity).
  assert (H4 : py_str 5 = Some (L "5")) by (vm_compute; reflexivity).
  split; [repeat split; assumption|].
  exact (proj1 (get_hours_minutes_roundtrip 730 5 _ _ H1 H2 H3 H4)).
Defined.

(** Extra X4: [get_hours_minutes] raises on the empty string and on any
    text with two or more colons (the unpacking into [hours, minutes]
    fails). *)
Theorem get_hours_minutes_rejects (t : str) :
  t = [] \/ (2 <= List.length (filter is_colon t))%nat -> get_hours_minutes t = None.
Proof.
  intros [->|H]; [reflexivity|].
  unfold get_hours_minutes.
  rewrite filter_nonempty_existsb by (intros E; rewrite E in H; simpl in H; lia).
  pose proof (split_colon_length t) as Hl.
  destruct (split_colon t) as [|x [|y [|z r]]]; simpl in Hl; try lia; reflexivity.
Qed.

Lemma get_hours_minutes_rejects_witness :
  (2 <= List.length (filter is_colon (L "7:30:00")))%nat /\
  get_hours_minutes (L "7:30:00") = None.
Proof.
  assert (H : (2 <= List.length (filter is_colon (L "7:30:00")))%nat) by (vm_compute; lia).
  split; [exact H | apply get_hours_minutes_rejects; right; exact H].
Defined.

(** Extra X5: every match of [available_time_regex] captures a start time;
    the [start_time] and [end_time] captures are digits, or digits, a colon
    and digits; [get_hours_minutes] parses them whenever no run of digits
    of the line is longer than 4300; the [SI] and [EI] captures are always
    am/pm spellings; and an [end_time] is captured exactly when an end
    indicator [EI] is. *)
Theorem extractor_captures (line : str) (c : caps) :
  In c (finditer available_time_regex line) ->
  (exists w, group "start_time" c = Some w /\ time_text w) /\
  (forall w, group "end_time" c = Some w -> time_text w) /\
  (forall n w, time_group n = true -> group n c = Some w ->
     (digit_run_max line <= int_max_str_digits)%nat ->
     exists hm, get_hours_minutes w = Some hm) /\
  (forall w, group "SI" c = Some w -> am_spelling w || pm_spelling w = true) /\
  (forall w, group "EI" c = Some w -> am_spelling w || pm_spelling w = true) /\
  (group "end_time" c = None <-> group "EI" c = None).
Proof.
  intros Hc. destruct (finditer_match_facts line c Hc) as [H1 [H2 [H3 [H4 H5]]]].
  split; [exact H1|]. split; [exact H2|].
  split; [intros n w Hn Hw Hl; exact (finditer_capture_parse line c n w Hc Hn Hw Hl)|].
  split; [exact H3|]. split; [exact H4|]. split.
  - intros E. destruct H5 as [[_ H]|[e [v [He _]]]]; [exact H | congruence].
  - intros E. destruct H5 as [[H _]|[e [v [_ Hv]]]]; [exact H | congruence].
Qed.

Lemma extractor_captures_witness :
  let line := L "7-9pm" in
  let c := hd [] (finditer available_time_regex line) in
  In c (finditer available_time_regex line) /\
  (  (exists w, group "start_time" c = Some w /\ time_text w) /\
   (forall w, group "end_time" c = Some w -> time_text w) /\
   (forall n w, time_group n = true -> group n c = Some w ->
      (digit_run_max line <= int_max_str_digits)%nat ->
      exists hm, get_hours_minutes w = Some hm) /\
   (forall w, group "SI" c = Some w -> am_spelling w || pm_spelling w = true) /\
   (forall w, group "EI" c = Some w -> am_spelling w || pm_spelling w = true) /\
   (group "end_time" c = None <-> group "EI" c = None)).
Proof.
  intros line c.
  assert (H : In c (finditer available_time_regex line)) by (vm_compute; left; reflexivity).
  split; [exact H | exact (extractor_captures line c H)].
Defined.

(** Extra X6: the first loop classifies a match as 24-hour
    ([uses_24_hour_format]) exactly when it has neither a start nor an end
    indicator. *)
Theorem classifier_24_hour (line : str) (c : caps) :
  In c (finditer available_time_regex line) ->
  t_uses24 (temp_of_match c) = true <-> (group "SI" c = None /\ group "EI" c = None).
Proof.
  intros Hc. rewrite (uses24_of_match line c Hc).
  destruct (group "SI" c), (group "EI" c); split; intros H;
    try discriminate; try (destruct H; discriminate); auto.
Qed.

Lemma classifier_24_hour_witness :
  let line := L "13" in
  let c := hd [] (finditer available_time_regex line) in
  In c (finditer available_time_regex line) /\
  (group "SI" c = None /\ group "EI" c = None) /\ t_uses24 (temp_of_match c) = true.
Proof.
  intros line c.
  assert (H : In c (finditer available_time_regex line)) by (vm_compute; left; reflexivity).
  assert (N : group "SI" c = None /\ group "EI" c = None) by (vm_compute; split; reflexivity).
  split; [exact H|]. split; [exact N|]. apply (classifier_24_hour line c H). exact N.
Defined.

(** Extra X7: on every line, every resolved slot has a start hour in
    0-23 (only end hours can fall outside). *)
Theorem start_hours_in_range (line : str) (slots : list TimeSlot) :
  get_available_times_from_line line = Some slots ->
  Forall (fun x => (0 <= hours (start_time x) <= 23)%Z) slots.
Proof.
  intros Hs. pose proof (pipeline_some line slots Hs) as Hv.
  rewrite <- (map_map slot_value Some) in Hv.
  apply Forall_forall. intros x Hx.
  destruct (in_map_value _ _ _ _ Hv (in_map slot_value _ _ Hx)) as [c [Hc Hf]].
  destruct (resolve_value_parse _ _ Hf) as [[st [h [m [Hst Hg]]]] Hep].
  change (t_start (temp_of_match c)) with (group "start_time" c) in Hst.
  change (t_end (temp_of_match c)) with (group "end_time" c) in Hep.
  destruct (finditer_match_facts line c Hc) as [_ [He [_ [_ Hend]]]].
  destruct Hend as [[Het _]|[e [v [Het HEI]]]].
  - rewrite (match_value_no_end line c st h m Hc Hst Hg Het) in Hf.
    unfold slot_value, time_value in Hf. injection Hf; intros.
    match goal with E : _ = hours (start_time x) |- _ => rewrite <- E end.
    apply get_24_hour_format_bound.
  - destruct (Hep e Het (time_text_nonempty e (He e Het))) as [[eh em] Hge].
    rewrite (match_value_end line c st h m e eh em v Hc Hst Hg Het Hge HEI) in Hf.
    unfold slot_value, time_value in Hf.
    destruct (group "SI" c); injection Hf; intros;
      match goal with E : _ = hours (start_time x) |- _ => rewrite <- E end;
      apply get_24_hour_format_bound.
Qed.

Lemma start_hours_in_range_witness :
  let slots := [mkTimeSlot 2 (mkTime 1 19 0) (Some (mkTime 0 9 0))] in
  get_available_times_from_line (L "7-9pm") = Some slots /\
  Forall (fun x => (0 <= hours (start_time x) <= 23)%Z) slots.
Proof.
  intros slots.
  assert (H : get_available_times_from_line (L "7-9pm") = Some slots) by (vm_compute; reflexivity).
  split; [exact H | exact (start_hours_in_range _ _ H)].
Defined.

(** Extra X8: on a line with no run of more than 4300 digits,
    [get_available_times_from_line] returns; the slots it adds to the set,
    in the order they are added, are one per match in match order, each
    with the values the second loop computes for that match alone: the set
    never merges two slots. *)
Theorem pipeline_per_match (line : str) :
  (digit_run_max line <= int_max_str_digits)%nat ->
  exists slots, get_available_times_from_line line = Some slots /\
    map (fun x => Some (slot_value x)) slots =
    map (fun c => resolve_value (temp_of_match c)) (finditer available_time_regex line).
Proof. apply pipeline_values. Qed.

Lemma pipeline_per_match_witness :
  (digit_run_max (L "7-9pm, 10pm") <= int_max_str_digits)%nat /\
  exists slots, get_available_times_from_line (L "7-9pm, 10pm") = Some slots /\
    map (fun x => Some (slot_value x)) slots =
    map (fun c => resolve_value (temp_of_match c))
      (finditer available_time_regex (L "7-9pm, 10pm")).
Proof.
  assert (H : (digit_run_max (L "7-9pm, 10pm") <= int_max_str_digits)%nat)
    by (apply Nat.leb_le; vm_compute; reflexivity).
  split; [exact H | exact (pipeline_per_match _ H)].
Defined.

(** Extra X9: a match without an end time resolves to a slot with no end,
    whose start hour is converted with the start indicator, or with ["pm"]
    when there is none. *)
Theorem resolve_without_end (line : str) (c : caps) (st : str) (h m : Z) :
  In c (finditer available_time_regex line) ->
  group "start_time" c = Some st -> get_hours_minutes st = Some (h, m) ->
  group "end_time" c = None ->
  resolve_value (temp_of_match c) =
  Some ((get_24_hour_format h (match group "SI" c with Some w => w | None => L "pm" end), m), None).
Proof. apply match_value_no_end. Qed.

Lemma resolve_without_end_witness :
  let line := L "5am" in
  let c := hd [] (finditer available_time_regex line) in
  (In c (finditer available_time_regex line) /\
   group "start_time" c = Some (L "5") /\ get_hours_minutes (L "5") = Some (5%Z, 0%Z) /\
   group "end_time" c = None) /\
  resolve_value (temp_of_match c) =
  Some ((get_24_hour_format 5 (match group "SI" c with Some w => w | None => L "pm" end), 0%Z), None).
Proof.
  intros line c.
  assert (H1 : In c (finditer available_time_regex line)) by (vm_compute; left; reflexivity).
  assert (H2 : group "start_time" c = Some (L "5")) by (vm_compute; reflexivity).
  assert (H3 : get_hours_minutes (L "5") = Some (5%Z, 0%Z)) by (vm_compute; reflexivity).
  assert (H4 : group "end_time" c = None) by (vm_compute; reflexivity).
  split; [tauto|]. exact (resolve_without_end line c (L "5") 5 0 H1 H2 H3 H4).
Defined.

(** Extra X10: a match with an end time resolves as follows: with a start
    indicator, both hours are converted with the start indicator and the
    end indicator is ignored; without one, the start hour is converted
    twice (first with the empty indicator, then with the end indicator) and
    the end hour is kept unconverted. *)
Theorem resolve_with_end (line : str) (c : caps) (st : str) (h m : Z)
  (e : str) (eh em : Z) (v : str) :
  In c (finditer available_time_regex line) ->
  group "start_time" c = Some st -> get_hours_minutes st = Some (h, m) ->
  group "end_time" c = Some e -> get_hours_minutes e = Some (eh, em) ->
  group "EI" c = Some v ->
  resolve_value (temp_of_match c) =
  Some (match group "SI" c with
        | Some w => ((get_24_hour_format h w, m), Some (get_24_hour_format eh w, em))
        | None => ((get_24_hour_format (get_24_hour_format h []) v, m), Some (eh, em))
        end).
Proof. apply match_value_end. Qed.

Lemma resolve_with_end_witness :
  let line := L "3pm-9am" in
  let c := hd [] (finditer available_time_regex line) in
  (In c (finditer available_time_regex line) /\
   group "start_time" c = Some (L "3") /\ get_hours_minutes (L "3") = Some (3%Z, 0%Z) /\
   group "end_time" c = Some (L "9") /\ get_hours_minutes (L "9") = Some (9%Z, 0%Z) /\
   group "EI" c = Some (L "am")) /\
  resolve_value (temp_of_match c) =
  Some (match group "SI" c with
        | Some w => ((get_24_hour_format 3 w, 0%Z), Some (get_24_hour_format 9 w, 0%Z))
        | None => ((get_24_hour_format (get_24_hour_format 3 []) (L "am"), 0%Z), Some (9%Z, 0%Z))
        end).
Proof.
  intros line c.
  assert (H1 : In c (finditer available_time_regex line)) by (vm_compute; left; reflexivity).
  assert (H2 : group "start_time" c = Some (L "3")) by (vm_compute; reflexivity).
  assert (H3 : get_hours_minutes (L "3") = Some (3%Z, 0%Z)) by (vm_compute; reflexivity).
  assert (H4 : group "end_time" c = Some (L "9")) by (vm_compute; reflexivity).
  assert (H5 : get_hours_minutes (L "9") = Some (9%Z, 0%Z)) by (vm_compute; reflexivity).
  assert (H6 : group "EI" c = Some (L "am")) by (vm_compute; reflexivity).
  split; [tauto|].
  exact (resolve_with_end line c (L "3") 3 0 (L "9") 9 0 (L "am") H1 H2 H3 H4 H5 H6).
Defined.

(** Extra X11: [get_available_times_from_line] returns the empty list
    exactly on the lines that contain no decimal digit. *)
Theorem no_slots_iff_no_digit (line : str) :
  get_available_times_from_line line = Some [] <->
  forallb (fun a => negb (is_digit a)) line = true.
Proof.
  split.
  - intros E. pose proof (pipeline_some line [] E) as Hv. simpl in Hv.
    destruct (forallb (fun a => negb (is_digit a)) line) eqn:F; [reflexivity|].
    exfalso. apply (finditer_digit line F).
    unfold finditer in Hv.
    destruct (finditer_from available_time_regex line 0); [reflexivity | discriminate].
  - intros F. unfold get_available_times_from_line, finditer.
    rewrite (finditer_no_digit line 0 F). reflexivity.
Qed.
